(** * Food-price dashboard (SIPSA-P): the load / filter / aggregate pipeline

    Shallow embedding of [nb/dashboard_app.py]: [load_data] and the data
    part of [main] (date / product / market filters, the three KPIs and the
    percent variation, the date x market pivot and the market ranking).

    Modelling conventions.
    - A pandas DataFrame is the list of its rows, in row order, with the six
      columns named in the docstring of [load_data].
    - Text is [string] (one [ascii] per character; case mapping and
      whitespace are those of Python on ASCII, other characters are carried
      unchanged).
    - A timestamp is an integer ([Z]); [None] is NaT.  [read_csv] converts
      the date column only when every date cell is a date or blank;
      otherwise the column stays text ([load_rows], [TextFrame]).  [RawRow]
      and [DataFrame] are the frames whose date column was converted, the
      only ones [main] can work on.
    - A float64 is either [NaN] or a finite value held as an exact rational:
      rounding, overflow and infinities are outside the model.
    - The library sort behind [sort_values] (default [kind="quicksort"]) is
      an interface, [SortKernel]: pandas documents that kind as not stable,
      so only "sorted permutation of the input" is assumed of it.
    - Streamlit widgets are inputs: what the user picked is a [Selection]. *)

From Stdlib Require Import List String Ascii Bool Arith ZArith QArith Lia Lqa.
From Stdlib Require Import Permutation Sorted OrderedTypeEx DecimalString.
Import ListNotations.

Local Open Scope string_scope.
Local Open Scope list_scope.

(* ------------------------------------------------------------------ *)
(** ** Python [str] methods used by the loader *)

Module PyStr.

(** [str.isspace] on one ASCII character: TAB..CR, FS..US and the blank. *)
Definition isspace (c : ascii) : bool :=
  let n := nat_of_ascii c in
  ((9 <=? n)%nat && (n <=? 13)%nat) || ((28 <=? n)%nat && (n <=? 32)%nat).

Definition islower (c : ascii) : bool :=
  let n := nat_of_ascii c in (97 <=? n)%nat && (n <=? 122)%nat.

Definition isupper (c : ascii) : bool :=
  let n := nat_of_ascii c in (65 <=? n)%nat && (n <=? 90)%nat.

Definition upper_char (c : ascii) : ascii :=
  if islower c then ascii_of_nat (nat_of_ascii c - 32) else c.

Definition lower_char (c : ascii) : ascii :=
  if isupper c then ascii_of_nat (nat_of_ascii c + 32) else c.

Fixpoint upper (s : string) : string :=
  match s with
  | EmptyString => EmptyString
  | String c s' => String (upper_char c) (upper s')
  end.

Fixpoint lower (s : string) : string :=
  match s with
  | EmptyString => EmptyString
  | String c s' => String (lower_char c) (lower s')
  end.

Fixpoint lstrip (s : string) : string :=
  match s with
  | EmptyString => EmptyString
  | String c s' => if isspace c then lstrip s' else s
  end.

Fixpoint rstrip (s : string) : string :=
  match s with
  | EmptyString => EmptyString
  | String c s' =>
      match rstrip s' with
      | EmptyString => if isspace c then EmptyString else String c EmptyString
      | t => String c t
      end
  end.

(** [s.strip()] *)
Definition strip (s : string) : string := rstrip (lstrip s).

(** [s.replace(old, new)] for a one-character [old]. *)
Fixpoint replace (old : ascii) (new : string) (s : string) : string :=
  match s with
  | EmptyString => EmptyString
  | String c s' =>
      if Ascii.eqb c old then new ++ replace old new s'
      else String c (replace old new s')
  end.

(** [c in s] for a one-character [c]. *)
Fixpoint contains (c : ascii) (s : string) : bool :=
  match s with
  | EmptyString => false
  | String d s' => Ascii.eqb d c || contains c s'
  end.

Fixpoint forallb (p : ascii -> bool) (s : string) : bool :=
  match s with
  | EmptyString => true
  | String c s' => p c && forallb p s'
  end.

Definition first_char (s : string) : option ascii :=
  match s with
  | EmptyString => None
  | String c _ => Some c
  end.

Fixpoint last_char (s : string) : option ascii :=
  match s with
  | EmptyString => None
  | String c EmptyString => Some c
  | String _ s' => last_char s'
  end.

Definition is_space_opt (o : option ascii) : bool :=
  match o with
  | Some c => isspace c
  | None => false
  end.

(** The text starts or ends with a whitespace character. *)
Definition surrounded (s : string) : bool :=
  is_space_opt (first_char s) || is_space_opt (last_char s).

End PyStr.

(* ------------------------------------------------------------------ *)
(** ** Cells and rows *)

Inductive float64 : Type :=
| Finite (q : Q)
| NaN.

(** A cell of the price column as [read_csv] leaves it: a number (the
    column was inferred numeric, [NaN] where the field was blank) or, in an
    object column, the text of the field. *)
Inductive Cell : Type :=
| CFloat (x : float64)
| CStr (s : string).

(** One line of the CSV after [pd.read_csv(path, parse_dates=["fecha"])]
    converted the date column: [raw_fecha] is [None] (NaT) where the field
    was blank.  Text cells are [None] where the field was blank (NaN).  The
    file whose dates were not converted is [CsvRow] and [load_rows] below. *)
Record RawRow : Type := mkRaw {
  raw_fecha : option Z;
  raw_grupo : option string;
  raw_producto : option string;
  raw_codigo_cpc_ac : option string;
  raw_mercado : option string;
  raw_precio : Cell
}.

(** One row of the frame [load_data] returns. *)
Record Row : Type := mkRow {
  fecha : option Z;
  grupo : string;
  producto : string;
  codigo_cpc_ac : option string;
  mercado : string;
  precio_promedio_por_kilogramo : float64
}.

Definition DataFrame : Type := list Row.

Definition notna_fecha (d : option Z) : bool :=
  match d with
  | Some _ => true
  | None => false
  end.

Definition notna (x : float64) : bool :=
  match x with
  | Finite _ => true
  | NaN => false
  end.

(* ------------------------------------------------------------------ *)
(** ** [load_data] *)

(** Header normalisation, lines 35-41:
    [.str.strip().str.lower().str.replace(" ", "_").str.replace("*", "")]. *)
Definition normalize_column (name : string) : string :=
  PyStr.replace "*"%char ""
    (PyStr.replace " "%char "_" (PyStr.lower (PyStr.strip name))).

(** [astype(str)] on a text cell: a missing value prints as [nan]. *)
Definition astype_str (c : option string) : string :=
  match c with
  | Some s => s
  | None => "nan"
  end.

(** Line 45: [df[col].astype(str).str.strip().str.upper()]. *)
Definition normalize_text (c : option string) : string :=
  PyStr.upper (PyStr.strip (astype_str c)).

Definition possible_paths : list string :=
  [ "data/processed/sipsa_master.csv";
    "/content/data/processed/sipsa_master.csv" ].

Section Loader.

(** The string-to-float conversion of [pd.to_numeric]: [None] where the text
    is not a number. *)
Variable parse_float : string -> option Q.

(** [pd.to_numeric(..., errors="coerce")] on one cell. *)
Definition to_numeric (c : Cell) : float64 :=
  match c with
  | CFloat x => x
  | CStr s =>
      match parse_float s with
      | Some q => Finite q
      | None => NaN
      end
  end.

(** Lines 43-51 on one row. *)
Definition normalize_row (r : RawRow) : Row :=
  {| fecha := raw_fecha r;
     grupo := normalize_text (raw_grupo r);
     producto := normalize_text (raw_producto r);
     codigo_cpc_ac := raw_codigo_cpc_ac r;
     mercado := normalize_text (raw_mercado r);
     precio_promedio_por_kilogramo := to_numeric (raw_precio r) |}.

(** Line 55: [df.dropna(subset=["fecha", "precio_promedio_por_kilogramo"])]. *)
Definition dropna_fecha_precio (df : DataFrame) : DataFrame :=
  filter (fun r => notna_fecha (fecha r)
                   && notna (precio_promedio_por_kilogramo r)) df.

Definition normalize_frame (rows : list RawRow) : DataFrame :=
  dropna_fecha_precio (map normalize_row rows).

(** The first path of [possible_paths] that exists, with its content. *)
Fixpoint first_existing (read_csv : string -> option (list RawRow))
  (paths : list string) : option (list RawRow * string) :=
  match paths with
  | [] => None
  | path :: rest =>
      match read_csv path with
      | Some df => Some (df, path)
      | None => first_existing read_csv rest
      end
  end.

(** [load_data()]: [read_csv p] is [None] when [os.path.exists(p)] is false. *)
Definition load_data (read_csv : string -> option (list RawRow))
  : option DataFrame * option string :=
  match first_existing read_csv possible_paths with
  | None => (None, None)
  | Some (rows, chosen_path) => (Some (normalize_frame rows), Some chosen_path)
  end.

End Loader.

(** A conversion that reads decimal integers only: enough to run the loader
    on examples. *)
Definition parse_integer (s : string) : option Q :=
  option_map (fun i => inject_Z (Z.of_int i)) (NilZero.int_of_string s).

(* ------------------------------------------------------------------ *)
(** ** [load_data] on the text of the file: the date column *)

(** One line of the file before [read_csv] converts the dates: the date cell
    is still text ([None] where the field is blank). *)
Record CsvRow : Type := mkCsv {
  csv_fecha : option string;
  csv_grupo : option string;
  csv_producto : option string;
  csv_codigo_cpc_ac : option string;
  csv_mercado : option string;
  csv_precio : Cell
}.

(** One row of a loaded frame whose [fecha] column is text. *)
Record TextRow : Type := mkText {
  text_fecha : option string;
  text_grupo : string;
  text_producto : string;
  text_codigo_cpc_ac : option string;
  text_mercado : string;
  text_precio : float64
}.

(** What lines 27-57 leave in [df]: a frame whose [fecha] column holds
    dates, or one whose [fecha] column is the text of the file. *)
Inductive Loaded : Type :=
| DateFrame (df : DataFrame)
| TextFrame (rows : list TextRow).

Definition notna_text (c : option string) : bool :=
  match c with
  | Some _ => true
  | None => false
  end.

Section DateColumn.

(** The string-to-date conversion behind [parse_dates]: [None] where the
    text is not a date. *)
Variable parse_date : string -> option Z.
Variable parse_float : string -> option Q.

Definition date_cell_parses (c : option string) : bool :=
  match c with
  | None => true
  | Some s =>
      match parse_date s with
      | Some _ => true
      | None => false
      end
  end.

(** [parse_dates=["fecha"]] converts the column when every cell that is not
    blank is a date; otherwise [read_csv] returns the column as it read it,
    as text. *)
Definition column_parses (rows : list CsvRow) : bool :=
  forallb date_cell_parses (map csv_fecha rows).

(** A line of a file whose date column was converted: a blank is NaT. *)
Definition parsed_row (r : CsvRow) : RawRow :=
  {| raw_fecha := match csv_fecha r with
                  | Some s => parse_date s
                  | None => None
                  end;
     raw_grupo := csv_grupo r;
     raw_producto := csv_producto r;
     raw_codigo_cpc_ac := csv_codigo_cpc_ac r;
     raw_mercado := csv_mercado r;
     raw_precio := csv_precio r |}.

(** Lines 43-51 on a line of a file whose date column stayed text. *)
Definition text_row (r : CsvRow) : TextRow :=
  {| text_fecha := csv_fecha r;
     text_grupo := normalize_text (csv_grupo r);
     text_producto := normalize_text (csv_producto r);
     text_codigo_cpc_ac := csv_codigo_cpc_ac r;
     text_mercado := normalize_text (csv_mercado r);
     text_precio := to_numeric parse_float (csv_precio r) |}.

(** Line 55 on a frame whose date column is text: only a blank is null. *)
Definition dropna_text (rows : list TextRow) : list TextRow :=
  filter (fun r => notna_text (text_fecha r) && notna (text_precio r)) rows.

(** Lines 27-55 on the lines of the file. *)
Definition load_rows (rows : list CsvRow) : Loaded :=
  if column_parses rows
  then DateFrame (normalize_frame parse_float (map parsed_row rows))
  else TextFrame (dropna_text (map text_row rows)).

End DateColumn.

(** Days from 1970-01-01 to the given day of the proleptic Gregorian
    calendar. *)
Definition days_from_civil (y m d : Z) : Z :=
  let y' := (if m <=? 2 then y - 1 else y)%Z in
  let era := (y' / 400)%Z in
  let yoe := (y' - era * 400)%Z in
  let doy := ((153 * (if 2 <? m then m - 3 else m + 9) + 2) / 5 + d - 1)%Z in
  let doe := (yoe * 365 + yoe / 4 - yoe / 100 + doy)%Z in
  (era * 146097 + doe - 719468)%Z.

Definition days_in_month (y m : Z) : Z :=
  if (m =? 2)%Z then
    if ((y mod 4 =? 0) && (negb (y mod 100 =? 0) || (y mod 400 =? 0)))%Z
    then 29%Z else 28%Z
  else if ((m =? 4) || (m =? 6) || (m =? 9) || (m =? 11))%Z then 30%Z
  else 31%Z.

Definition digits_to_Z (s : string) : option Z :=
  option_map Z.of_uint (NilEmpty.uint_of_string s).

(** A date conversion that reads [YYYY-MM-DD] only: enough to run the loader
    on examples. *)
Definition parse_iso_date (s : string) : option Z :=
  if (String.length s =? 10)%nat
     && (substring 4 1 s =? "-")%string && (substring 7 1 s =? "-")%string
  then
    match digits_to_Z (substring 0 4 s), digits_to_Z (substring 5 2 s),
          digits_to_Z (substring 8 2 s) with
    | Some y, Some m, Some d =>
        if ((1 <=? m) && (m <=? 12) && (1 <=? d) && (d <=? days_in_month y m))%Z
        then Some (days_from_civil y m d)
        else None
    | _, _, _ => None
    end
  else None.

(* ------------------------------------------------------------------ *)
(** ** Library operations: sorting, [unique], reductions *)

Definition leb_total {A : Type} (leb : A -> A -> bool) : Prop :=
  forall x y, leb x y = true \/ leb y x = true.

Definition leb_trans {A : Type} (leb : A -> A -> bool) : Prop :=
  forall x y z, leb x y = true -> leb y z = true -> leb x z = true.

(** The sort behind [DataFrame.sort_values] / [Series.sort_values] when no
    [kind] is passed.  Its contract is the one pandas documents for the
    default kind: the result is the input reordered, in order; nothing is
    promised about elements that compare equal. *)
Class SortKernel : Type := {
  sort_by : forall {A : Type}, (A -> A -> bool) -> list A -> list A;
  sort_by_perm :
    forall (A : Type) (leb : A -> A -> bool) (l : list A),
      Permutation (sort_by leb l) l;
  sort_by_sorted :
    forall (A : Type) (leb : A -> A -> bool),
      leb_total leb -> leb_trans leb ->
      forall l, StronglySorted (fun x y => leb x y = true) (sort_by leb l)
}.

Section ListOps.

Context {A : Type}.
Variable leb : A -> A -> bool.
Variable eqb : A -> A -> bool.

Fixpoint insert_sorted (x : A) (l : list A) : list A :=
  match l with
  | [] => [x]
  | y :: t => if leb x y then x :: l else y :: insert_sorted x t
  end.

(** Python's built-in [sorted]: ascending and stable. *)
Fixpoint sorted (l : list A) : list A :=
  match l with
  | [] => []
  | x :: t => insert_sorted x (sorted t)
  end.

(** [Series.unique()]: distinct values in order of first appearance. *)
Fixpoint unique (l : list A) : list A :=
  match l with
  | [] => []
  | x :: t => x :: filter (fun y => negb (eqb x y)) (unique t)
  end.

Fixpoint has_duplicates (l : list A) : bool :=
  match l with
  | [] => false
  | x :: t => existsb (eqb x) t || has_duplicates t
  end.

End ListOps.

(** [s.head(n)] and [s.tail(n)] for [0 <= n]. *)
Definition head {A : Type} (n : nat) (l : list A) : list A := firstn n l.
Definition tail {A : Type} (n : nat) (l : list A) : list A :=
  skipn (List.length l - n) l.

Definition is_empty {A : Type} (l : list A) : bool :=
  match l with
  | [] => true
  | _ :: _ => false
  end.

Fixpoint Qsum (l : list Q) : Q :=
  match l with
  | [] => 0
  | x :: t => x + Qsum t
  end.

(** The non-NaN values of a column, in order ([skipna=True]). *)
Fixpoint finites (l : list float64) : list Q :=
  match l with
  | [] => []
  | Finite q :: t => q :: finites t
  | NaN :: t => finites t
  end.

(** [Series.mean()]: NaN on a series with no value. *)
Definition mean (l : list float64) : float64 :=
  match finites l with
  | [] => NaN
  | xs => Finite (Qsum xs / inject_Z (Z.of_nat (List.length xs)))
  end.

Definition opt_min (a b : option Z) : option Z :=
  match a, b with
  | Some x, Some y => Some (Z.min x y)
  | Some x, None => Some x
  | None, _ => b
  end.

Definition opt_max (a b : option Z) : option Z :=
  match a, b with
  | Some x, Some y => Some (Z.max x y)
  | Some x, None => Some x
  | None, _ => b
  end.

(** [Series.min()] / [Series.max()] on a datetime column: NaT is skipped,
    and is the result on a column with no date. *)
Definition series_min (l : list (option Z)) : option Z := fold_right opt_min None l.
Definition series_max (l : list (option Z)) : option Z := fold_right opt_max None l.

(** Arithmetic and comparison on float64, NaN-propagating.  A division by
    zero, which numpy answers with an infinity or NaN, is NaN here; the guard
    of line 178 keeps [main] away from it. *)
Definition fdiv (x y : float64) : float64 :=
  match x, y with
  | Finite a, Finite b => if Qeq_bool b 0 then NaN else Finite (a / b)
  | _, _ => NaN
  end.

Definition fsub (x y : float64) : float64 :=
  match x, y with
  | Finite a, Finite b => Finite (a - b)
  | _, _ => NaN
  end.

Definition fmul (x y : float64) : float64 :=
  match x, y with
  | Finite a, Finite b => Finite (a * b)
  | _, _ => NaN
  end.

(** [x > y]: false as soon as one side is NaN. *)
Definition fgt (x y : float64) : bool :=
  match x, y with
  | Finite a, Finite b => negb (Qle_bool a b)
  | _, _ => false
  end.

(** Two floats denote the same value. *)
Definition feq (x y : float64) : Prop :=
  match x, y with
  | Finite a, Finite b => a == b
  | NaN, NaN => True
  | _, _ => False
  end.

Definition fval (x : float64) : Q :=
  match x with
  | Finite q => q
  | NaN => 0
  end.

(* ------------------------------------------------------------------ *)
(** ** [main]: the sidebar filters (lines 93-144) *)

(** What the user picked in the sidebar: the two ends of the date slider,
    the select box (Python [None] when it has no option) and the
    multiselect. *)
Record Selection : Type := mkSel {
  start_date : Z;
  end_date : Z;
  producto_sel : option string;
  mercados_sel : list string
}.

(** Lines 112-114: both comparisons are false on NaT. *)
Definition mask_fecha (lo hi : Z) (r : Row) : bool :=
  match fecha r with
  | Some d => (lo <=? d)%Z && (d <=? hi)%Z
  | None => false
  end.

Definition df_periodo (df : DataFrame) (sel : Selection) : DataFrame :=
  filter (mask_fecha (start_date sel) (end_date sel)) df.

(** Line 118.  The column holds text only ([astype(str)] in [load_data]), so
    [.dropna()] removes nothing. *)
Definition productos (df : DataFrame) (sel : Selection) : list string :=
  sorted String.leb (unique String.eqb (map producto (df_periodo df sel))).

(** [df_periodo["producto"] == producto_sel] *)
Definition eq_producto (p : option string) (r : Row) : bool :=
  match p with
  | Some p => String.eqb (producto r) p
  | None => false
  end.

(** Line 126: [df_producto] before the market filter. *)
Definition df_producto_periodo (df : DataFrame) (sel : Selection) : DataFrame :=
  filter (eq_producto (producto_sel sel)) (df_periodo df sel).

(** Line 129. *)
Definition mercados_disponibles (df : DataFrame) (sel : Selection) : list string :=
  sorted String.leb
    (unique String.eqb (map mercado (df_producto_periodo df sel))).

(** Lines 130-134. *)
Definition mercados_default (df : DataFrame) (sel : Selection) : list string :=
  let disponibles := mercados_disponibles df sel in
  if (List.length disponibles <=? 5)%nat then disponibles
  else firstn 5 disponibles.

(** [Series.isin(values)] on one value. *)
Definition isin (values : list string) (m : string) : bool :=
  existsb (String.eqb m) values.

(** Lines 143-144: [df_producto] as the rest of [main] sees it. *)
Definition df_producto (df : DataFrame) (sel : Selection) : DataFrame :=
  match mercados_sel sel with
  | [] => df_producto_periodo df sel
  | _ :: _ =>
      filter (fun r => isin (mercados_sel sel) (mercado r))
        (df_producto_periodo df sel)
  end.

(** The same query with another content of the multiselect. *)
Definition with_mercados (sel : Selection) (ms : list string) : Selection :=
  {| start_date := start_date sel;
     end_date := end_date sel;
     producto_sel := producto_sel sel;
     mercados_sel := ms |}.

(* ------------------------------------------------------------------ *)
(** ** [main]: indicators, time series and ranking (lines 159-265) *)

Definition pair_eqb (a b : Z * string) : bool :=
  (fst a =? fst b)%Z && String.eqb (snd a) (snd b).

(** Order of the group keys of [groupby(["fecha", "mercado"])]. *)
Definition pair_leb (a b : Z * string) : bool :=
  (fst a <? fst b)%Z || ((fst a =? fst b)%Z && String.leb (snd a) (snd b)).

Definition fecha_key (r : Row) : Z :=
  match fecha r with
  | Some d => d
  | None => 0%Z
  end.

(** [df["fecha"] == d] *)
Definition eq_fecha (d : option Z) (r : Row) : bool :=
  match fecha r, d with
  | Some a, Some b => (a =? b)%Z
  | _, _ => false
  end.

Definition col_precio (df : DataFrame) : list float64 :=
  map precio_promedio_por_kilogramo df.

(** The (date, market) key of a row; rows without a date belong to no group
    ([groupby] drops null keys). *)
Definition fecha_mercado_keys (df : DataFrame) : list (Z * string) :=
  flat_map (fun r => match fecha r with
                     | Some d => [(d, mercado r)]
                     | None => []
                     end) df.

Definition in_group (k : Z * string) (r : Row) : bool :=
  match fecha r with
  | Some d => (d =? fst k)%Z && String.eqb (mercado r) (snd k)
  | None => false
  end.

(** [df.groupby("mercado")[price].mean()]: one entry per market, keys in
    ascending order. *)
Definition groupby_mercado_mean (df : DataFrame) : list (string * float64) :=
  map (fun m => (m, mean (col_precio
                            (filter (fun r => String.eqb (mercado r) m) df))))
      (sorted String.leb (unique String.eqb (map mercado df))).

(** The group keys of [groupby(["fecha", "mercado"])]: the distinct pairs,
    in ascending order. *)
Definition group_keys (df : DataFrame) : list (Z * string) :=
  sorted pair_leb (unique pair_eqb (fecha_mercado_keys df)).

(** [df.groupby(["fecha", "mercado"])[price].mean().reset_index()] *)
Definition groupby_fecha_mercado_mean (df : DataFrame)
  : list (Z * string * float64) :=
  map (fun k => (fst k, snd k, mean (col_precio (filter (in_group k) df))))
      (group_keys df).

(** The frame [pivot] builds: one row per date, one column per market. *)
Record PivotTable : Type := mkPivot {
  index : list Z;
  columns : list string;
  values : list (list float64)
}.

Definition lookup_cell (s : list (Z * string * float64)) (d : Z) (m : string)
  : float64 :=
  match find (fun e => (fst (fst e) =? d)%Z && String.eqb (snd (fst e)) m) s with
  | Some e => snd e
  | None => NaN
  end.

(** [serie.pivot(index="fecha", columns="mercado", values=price)]: raises
    ([None]) when a (date, market) pair occurs twice; a pair that does not
    occur gives a NaN cell. *)
Definition pivot (s : list (Z * string * float64)) : option PivotTable :=
  if has_duplicates pair_eqb (map fst s) then None
  else
    let idx := sorted Z.leb (unique Z.eqb (map (fun e => fst (fst e)) s)) in
    let cols := sorted String.leb (unique String.eqb (map (fun e => snd (fst e)) s)) in
    Some {| index := idx;
            columns := cols;
            values := map (fun d => map (fun m => lookup_cell s d m) cols) idx |}.

Fixpoint index_of {A : Type} (eqb : A -> A -> bool) (x : A) (l : list A)
  : option nat :=
  match l with
  | [] => None
  | y :: t => if eqb x y then Some O else option_map S (index_of eqb x t)
  end.

(** [p.loc[d, m]]: [None] when [d] is no row label or [m] no column label. *)
Definition loc (p : PivotTable) (d : Z) (m : string) : option float64 :=
  match index_of Z.eqb d (index p), index_of String.eqb m (columns p) with
  | Some i, Some j =>
      match nth_error (values p) i with
      | Some row => nth_error row j
      | None => None
      end
  | _, _ => None
  end.

Section Main.

Context {K : SortKernel}.

(** [df.sort_values("fecha")]: rows without a date go last. *)
Definition sort_values_fecha (df : DataFrame) : DataFrame :=
  sort_by (fun r s => (fecha_key r <=? fecha_key s)%Z)
    (filter (fun r => notna_fecha (fecha r)) df)
  ++ filter (fun r => negb (notna_fecha (fecha r))) df.

(** [s.sort_values(ascending=...)] on a series indexed by market: NaN
    entries go last. *)
Definition sort_values (ascending : bool) (s : list (string * float64))
  : list (string * float64) :=
  sort_by (fun x y => if ascending
                      then Qle_bool (fval (snd x)) (fval (snd y))
                      else Qle_bool (fval (snd y)) (fval (snd x)))
    (filter (fun x => notna (snd x)) s)
  ++ filter (fun x => negb (notna (snd x))) s.

Definition df_producto_sorted (view : DataFrame) : DataFrame :=
  sort_values_fecha view.

Definition primer_fecha (view : DataFrame) : option Z :=
  series_min (map fecha (df_producto_sorted view)).

Definition ultima_fecha (view : DataFrame) : option Z :=
  series_max (map fecha (df_producto_sorted view)).

Definition precio_inicial (view : DataFrame) : float64 :=
  mean (col_precio (filter (eq_fecha (primer_fecha view))
                      (df_producto_sorted view))).

Definition precio_final (view : DataFrame) : float64 :=
  mean (col_precio (filter (eq_fecha (ultima_fecha view))
                      (df_producto_sorted view))).

(** Lines 177-179; [None] is Python's [None]. *)
Definition variacion_pct (view : DataFrame) : option float64 :=
  if fgt (precio_inicial view) (Finite 0)
  then Some (fmul (fsub (fdiv (precio_final view) (precio_inicial view))
                     (Finite 1)) (Finite 100))
  else None.

Definition precio_prom_periodo (view : DataFrame) : float64 :=
  mean (col_precio (df_producto_sorted view)).

Definition serie (view : DataFrame) : list (Z * string * float64) :=
  groupby_fecha_mercado_mean (df_producto_sorted view).

Definition ranking_mercados (view : DataFrame) : list (string * float64) :=
  sort_values false (groupby_mercado_mean (df_producto_sorted view)).

(** Line 255. *)
Definition top_n (view : DataFrame) : nat :=
  if (10 <? List.length (ranking_mercados view))%nat then 10%nat
  else List.length (ranking_mercados view).

(** Line 261, the chart of the most expensive markets. *)
Definition mas_caros (view : DataFrame) : list (string * float64) :=
  head (top_n view) (ranking_mercados view).

(** Line 265, the chart of the cheapest markets. *)
Definition mas_baratos (view : DataFrame) : list (string * float64) :=
  sort_values true (tail (top_n view) (ranking_mercados view)).

(** What [main] puts on the page. *)
Record Dashboard : Type := mkDashboard {
  kpi_precio_final : float64;
  kpi_precio_prom_periodo : float64;
  kpi_variacion_pct : option float64;
  chart_pivot : PivotTable;
  chart_mas_caros : list (string * float64);
  chart_mas_baratos : list (string * float64);
  table_ranking : list (string * float64)
}.

Inductive Outcome : Type :=
| StopError                      (* lines 85-91: [st.error] then [st.stop] *)
| StopWarning                    (* lines 147-152: [st.warning] then [st.stop] *)
| Raised                         (* an exception escaped [main] *)
| Page (d : Dashboard).

Definition main (loaded : option DataFrame * option string) (sel : Selection)
  : Outcome :=
  match fst loaded with
  | None => StopError
  | Some df =>
      if is_empty df then StopError
      else
        let view := df_producto df sel in
        if is_empty view then StopWarning
        else
          match pivot (serie view) with
          | None => Raised
          | Some p =>
              Page {| kpi_precio_final := precio_final view;
                      kpi_precio_prom_periodo := precio_prom_periodo view;
                      kpi_variacion_pct := variacion_pct view;
                      chart_pivot := p;
                      chart_mas_caros := mas_caros view;
                      chart_mas_baratos := mas_baratos view;
                      table_ranking := ranking_mercados view |}
          end
  end.

End Main.

(* ------------------------------------------------------------------ *)
(** ** [main]: the widgets as first drawn, and the closing table *)

(** Lines 100-101. *)
Definition min_date (df : DataFrame) : option Z := series_min (map fecha df).
Definition max_date (df : DataFrame) : option Z := series_max (map fecha df).

(** Lines 119-123: the select box opens on [productos[0]], on nothing when
    it has no option. *)
Definition producto_default (df : DataFrame) (sel : Selection) : option string :=
  hd_error (productos df sel).


(** Order of two rows by date, then market. *)
Definition fecha_mercado_leb (r s : Row) : bool :=
  pair_leb (fecha_key r, mercado r) (fecha_key s, mercado s).

Section Table.

Context {K : SortKernel}.

(** Lines 288-294: the table under the charts,
    [df_producto_sorted[[...]].sort_values(["fecha", "mercado"])].  The six
    columns are all the columns of a row; rows without a date go last. *)
Definition tabla_filtrada (view : DataFrame) : DataFrame :=
  sort_by fecha_mercado_leb
    (filter (fun r => notna_fecha (fecha r)) (df_producto_sorted view))
  ++ sort_by (fun r s => String.leb (mercado r) (mercado s))
       (filter (fun r => negb (notna_fecha (fecha r))) (df_producto_sorted view)).

End Table.

(** The single test the three filters of lines 112-144 amount to. *)
Definition selected (sel : Selection) (r : Row) : bool :=
  mask_fecha (start_date sel) (end_date sel) r
  && eq_producto (producto_sel sel) r
  && (is_empty (mercados_sel sel) || isin (mercados_sel sel) (mercado r)).

(** A header with blanks around it, capitals, inner blanks and an asterisk. *)
Definition irregular_header : string := " Precio promedio por kilogramo* ".

(* ------------------------------------------------------------------ *)
(** ** Notions the statements use *)


(** The rows of a view whose date is [d]. *)
Definition dated (d : Z) (view : DataFrame) : DataFrame :=
  filter (fun r => match fecha r with
                   | Some x => Z.eqb x d
                   | None => false
                   end) view.

(** A text value with no ASCII whitespace at either end and no ASCII
    lowercase letter. *)
Definition trimmed_upper (v : string) : Prop :=
  PyStr.surrounded v = false
  /\ PyStr.forallb (fun c => negb (PyStr.islower c)) v = true.

(** A raw row whose date parsed and whose price is a number after coercion. *)
Definition row_kept (parse_float : string -> option Q) (raw : RawRow) : bool :=
  notna_fecha (raw_fecha raw) && notna (to_numeric parse_float (raw_precio raw)).

(** The invariant of a loaded dataset, and of every view cut from it. *)
Definition no_nulls (df : DataFrame) : Prop :=
  Forall (fun r => fecha r <> None /\ precio_promedio_por_kilogramo r <> NaN) df.

(** The arithmetic mean of the prices of [rows] as the specification words
    it: the sum over every row divided by the number of rows. *)
Definition arithmetic_mean (rows : DataFrame) : Q :=
  Qsum (map (fun r => fval (precio_promedio_por_kilogramo r)) rows)
  / inject_Z (Z.of_nat (List.length rows)).

(** The number of distinct markets of a view. *)
Definition n_markets (view : DataFrame) : nat :=
  List.length (unique String.eqb (map mercado view)).

(** The rows of one market. *)
Definition of_mercado (m : string) (view : DataFrame) : DataFrame :=
  filter (fun r => String.eqb (mercado r) m) view.

(** Descending and ascending order of a series by value. *)
Definition descending (s : list (string * float64)) : Prop :=
  StronglySorted (fun x y => fval (snd y) <= fval (snd x)) s.

Definition ascending (s : list (string * float64)) : Prop :=
  StronglySorted (fun x y => fval (snd x) <= fval (snd y)) s.

(** [d] is the earliest (latest) date of [rows]. *)
Definition earliest_date (d : Z) (rows : DataFrame) : Prop :=
  (exists r, In r rows /\ fecha r = Some d)
  /\ forall r d', In r rows -> fecha r = Some d' -> (d <= d')%Z.

Definition latest_date (d : Z) (rows : DataFrame) : Prop :=
  (exists r, In r rows /\ fecha r = Some d)
  /\ forall r d', In r rows -> fecha r = Some d' -> (d' <= d)%Z.

(* ------------------------------------------------------------------ *)
(** ** Example data *)

(** The three-row scenario of the specification.  Dates are days since
    1970-01-01: 2023-01-01 is day 19358 and 2023-02-01 is day 19389. *)
Definition rice_dataset : DataFrame :=
  [ mkRow (Some 19358%Z) "GRAINS" "RICE" None "A" (Finite 1000);
    mkRow (Some 19358%Z) "GRAINS" "RICE" None "B" (Finite 2000);
    mkRow (Some 19389%Z) "GRAINS" "RICE" None "A" (Finite 1500) ].

Definition rice_query : Selection :=
  {| start_date := 19358; end_date := 19389;
     producto_sel := Some "RICE"; mercados_sel := [] |}.

Definition rice_view : DataFrame := df_producto rice_dataset rice_query.

(** One day of the scenario: both markets on 2023-01-01. *)
Definition rice_first_day : DataFrame :=
  df_producto rice_dataset
    {| start_date := 19358; end_date := 19358;
       producto_sel := Some "RICE"; mercados_sel := [] |}.

(** A file whose only price reads [-5]: [to_numeric] accepts it. *)
Definition negative_price_rows : list RawRow :=
  [ mkRaw (Some 19358%Z) (Some "grains") (Some "rice") None (Some "a")
      (CStr "-5") ].

Definition negative_price_view : DataFrame :=
  df_producto (normalize_frame parse_integer negative_price_rows)
    {| start_date := 19358; end_date := 19358;
       producto_sel := Some "RICE"; mercados_sel := [] |}.

(** Prices that rise: 1000 and 2000 on 2023-01-01, 3000 on 2023-02-01. *)
Definition rising_view : DataFrame :=
  [ mkRow (Some 19358%Z) "GRAINS" "RICE" None "A" (Finite 1000);
    mkRow (Some 19358%Z) "GRAINS" "RICE" None "B" (Finite 2000);
    mkRow (Some 19389%Z) "GRAINS" "RICE" None "A" (Finite 3000) ].

(** One product on one day in eleven markets, A the cheapest at 100 and K
    the most expensive at 1100. *)
Definition eleven_markets : DataFrame :=
  map (fun mp => mkRow (Some 19358%Z) "GRAINS" "RICE" None (fst mp)
                   (Finite (inject_Z (snd mp))))
    [ ("C", 300%Z); ("A", 100%Z); ("K", 1100%Z); ("E", 500%Z); ("B", 200%Z);
      ("G", 700%Z); ("D", 400%Z); ("J", 1000%Z); ("F", 600%Z); ("I", 900%Z);
      ("H", 800%Z) ].

(** Two lines of a file, the second with a date cell that is not a date. *)
Definition unparsed_date_file : list CsvRow :=
  [ mkCsv (Some "2023-01-01") (Some "grains") (Some "rice") None (Some "a")
      (CStr "1000");
    mkCsv (Some "sin fecha") (Some "grains") (Some "rice") None (Some "b")
      (CStr "2000") ].

(** Three lines of a file whose dates are dates or blank. *)
Definition parsed_date_file : list CsvRow :=
  [ mkCsv (Some "2023-01-01") (Some "grains") (Some "rice") None (Some "a")
      (CStr "1000");
    mkCsv None (Some "grains") (Some "rice") None (Some "b") (CStr "2000");
    mkCsv (Some "2023-02-01") (Some "grains") (Some "rice") None (Some "c")
      (CStr "n/d") ].

(** One product on one day in six markets, read in no particular order. *)
Definition six_markets : DataFrame :=
  map (fun m => mkRow (Some 19358%Z) "GRAINS" "RICE" None m (Finite 1000))
    [ "F"; "C"; "A"; "E"; "B"; "D" ].

(* ================================================================== *)
(** * Properties *)

(* ------------------------------------------------------------------ *)
(** ** Text normalisation *)

Module PyStrFacts.
Import PyStr.

Ltac each_ascii c :=
  destruct c as [[] [] [] [] [] [] [] []]; vm_compute; try reflexivity; try discriminate.

Lemma upper_char_not_lower (c : ascii) : islower (upper_char c) = false.
Proof. each_ascii c. Qed.

Lemma upper_char_isspace (c : ascii) : isspace (upper_char c) = isspace c.
Proof. each_ascii c. Qed.



Lemma upper_no_lower (s : string) :
  forallb (fun c => negb (islower c)) (upper s) = true.
Proof.
  induction s as [|c s IH]; simpl; [reflexivity|].
  now rewrite upper_char_not_lower, IH.
Qed.

Lemma first_char_upper (s : string) :
  first_char (upper s) = option_map upper_char (first_char s).
Proof. destruct s; reflexivity. Qed.

Lemma last_char_upper (s : string) :
  last_char (upper s) = option_map upper_char (last_char s).
Proof.
  induction s as [|c s IH]; [reflexivity|].
  destruct s as [|d s]; [reflexivity|].
  exact IH.
Qed.

Lemma surrounded_upper (s : string) : surrounded (upper s) = surrounded s.
Proof.
  unfold surrounded. rewrite first_char_upper, last_char_upper.
  destruct (first_char s), (last_char s); simpl;
    now rewrite ?upper_char_isspace.
Qed.

Lemma first_char_lstrip (s : string) :
  is_space_opt (first_char (lstrip s)) = false.
Proof.
  induction s as [|c s IH]; simpl; [reflexivity|].
  destruct (isspace c) eqn:E; [exact IH|]. simpl. exact E.
Qed.

Lemma last_char_rstrip (s : string) :
  is_space_opt (last_char (rstrip s)) = false.
Proof.
  induction s as [|c s IH]; simpl; [reflexivity|].
  destruct (rstrip s) as [|d t] eqn:E.
  - destruct (isspace c) eqn:Ec; simpl; [reflexivity|exact Ec].
  - exact IH.
Qed.

Lemma first_char_rstrip (s : string) :
  is_space_opt (first_char s) = false ->
  is_space_opt (first_char (rstrip s)) = false.
Proof.
  destruct s as [|c s]; simpl; [reflexivity|]. intros Hc.
  destruct (rstrip s); [rewrite Hc|]; simpl; assumption.
Qed.

Lemma strip_not_surrounded (s : string) : surrounded (strip s) = false.
Proof.
  unfold surrounded, strip.
  rewrite first_char_rstrip by apply first_char_lstrip.
  now rewrite last_char_rstrip.
Qed.





Lemma contains_append (c : ascii) (s t : string) :
  contains c (s ++ t) = contains c s || contains c t.
Proof.
  induction s as [|d s IH]; simpl; [reflexivity|].
  now rewrite IH, orb_assoc.
Qed.

Lemma replace_removes (c : ascii) (s : string) :
  contains c (replace c "" s) = false.
Proof.
  induction s as [|d s IH]; simpl; [reflexivity|].
  destruct (Ascii.eqb d c) eqn:E; simpl; [exact IH|].
  now rewrite E, IH.
Qed.

End PyStrFacts.

Lemma normalize_text_trimmed_upper (c : option string) :
  trimmed_upper (normalize_text c).
Proof.
  unfold trimmed_upper, normalize_text. split.
  - rewrite PyStrFacts.surrounded_upper. apply PyStrFacts.strip_not_surrounded.
  - apply PyStrFacts.upper_no_lower.
Qed.


Lemma normalize_frame_eq (parse_float : string -> option Q) (rows : list RawRow) :
  normalize_frame parse_float rows
  = map (normalize_row parse_float) (filter (row_kept parse_float) rows).
Proof.
  unfold normalize_frame, dropna_fecha_precio.
  induction rows as [|raw rows IH]; simpl; [reflexivity|].
  unfold row_kept at 1. simpl.
  destruct (notna_fecha (raw_fecha raw)
            && notna (to_numeric parse_float (raw_precio raw)));
    simpl; now rewrite IH.
Qed.

(* ------------------------------------------------------------------ *)
(** ** The loader *)


Lemma normalize_frame_notna (parse_float : string -> option Q) (rows : list RawRow) :
  Forall (fun r => fecha r <> None /\ precio_promedio_por_kilogramo r <> NaN)
    (normalize_frame parse_float rows).
Proof.
  unfold normalize_frame, dropna_fecha_precio.
  apply Forall_forall. intros r Hr.
  apply filter_In in Hr. destruct Hr as [_ Hr].
  apply andb_prop in Hr. destruct Hr as [Hd Hp].
  split.
  - destruct (fecha r); [discriminate|discriminate Hd].
  - destruct (precio_promedio_por_kilogramo r); [discriminate|discriminate Hp].
Qed.

Lemma row_kept_iff (parse_float : string -> option Q) (raw : RawRow) :
  row_kept parse_float raw = true
  <-> raw_fecha raw <> None /\ to_numeric parse_float (raw_precio raw) <> NaN.
Proof.
  unfold row_kept.
  destruct (raw_fecha raw), (to_numeric parse_float (raw_precio raw)); simpl;
    split; try discriminate; try (intros [H1 H2]; congruence);
    intros _; split; discriminate.
Qed.




(** A date cell that is not a date leaves the whole column as text. *)
Lemma column_parses_false (parse_date : string -> option Z)
  (rows : list CsvRow) (r : CsvRow) (s : string) :
  In r rows -> csv_fecha r = Some s -> parse_date s = None ->
  column_parses parse_date rows = false.
Proof.
  intros Hin Hs Hp. unfold column_parses.
  apply not_true_is_false. intros H.
  rewrite forallb_forall in H.
  specialize (H (csv_fecha r) (in_map csv_fecha rows r Hin)).
  rewrite Hs in H. simpl in H. rewrite Hp in H. discriminate.
Qed.

(** Then no row is dropped for its date unless the cell is blank. *)
Lemma text_column_keeps_rows (parse_date : string -> option Z)
  (parse_float : string -> option Q) (rows : list CsvRow) :
  column_parses parse_date rows = false ->
  load_rows parse_date parse_float rows
  = TextFrame (dropna_text (map (text_row parse_float) rows))
  /\ forall r,
      In r rows -> csv_fecha r <> None ->
      to_numeric parse_float (csv_precio r) <> NaN ->
      In (text_row parse_float r)
         (dropna_text (map (text_row parse_float) rows)).
Proof.
  intros H. unfold load_rows. rewrite H. split; [reflexivity|].
  intros r Hin Hd Hp. unfold dropna_text. apply filter_In.
  split; [now apply in_map|]. simpl.
  destruct (csv_fecha r); [|contradiction].
  destruct (to_numeric parse_float (csv_precio r)); [reflexivity|contradiction].
Qed.

(** C2, on the code: a file with the lines [2023-01-01 ... 1000] and
    [sin fecha ... 2000] loads with both rows.  The second date is not a
    date, so the column stays text, [dropna] finds no null in it and the row
    whose date did not parse is kept, its date still the text [sin fecha].
    On a file whose dates are dates or blank the blank-date row and the row
    without a numeric price are dropped. *)
Theorem unparsed_date_is_kept :
  parse_iso_date "sin fecha" = None
  /\ load_rows parse_iso_date parse_integer unparsed_date_file
     = TextFrame
         [ mkText (Some "2023-01-01") "GRAINS" "RICE" None "A" (Finite 1000);
           mkText (Some "sin fecha") "GRAINS" "RICE" None "B" (Finite 2000) ]
  /\ load_rows parse_iso_date parse_integer parsed_date_file
     = DateFrame
         [ mkRow (Some 19358%Z) "GRAINS" "RICE" None "A" (Finite 1000) ].
Proof.
  split; [reflexivity|]. split.
  - destruct (text_column_keeps_rows parse_iso_date parse_integer
                unparsed_date_file) as [H _].
    + apply (column_parses_false parse_iso_date unparsed_date_file
               (mkCsv (Some "sin fecha") (Some "grains") (Some "rice") None
                  (Some "b") (CStr "2000")) "sin fecha").
      * simpl. auto.
      * reflexivity.
      * reflexivity.
    + rewrite H. reflexivity.
  - reflexivity.
Qed.

(* ------------------------------------------------------------------ *)
(** ** Sorting and [unique] *)

Section SortedFacts.

Context {A : Type}.
Variable leb : A -> A -> bool.

Lemma insert_sorted_perm (x : A) (l : list A) :
  Permutation (insert_sorted leb x l) (x :: l).
Proof.
  induction l as [|y t IH]; simpl; [apply Permutation_refl|].
  destruct (leb x y); [apply Permutation_refl|].
  eapply perm_trans; [apply perm_skip, IH|apply perm_swap].
Qed.

Lemma sorted_perm (l : list A) : Permutation (sorted leb l) l.
Proof.
  induction l as [|x t IH]; simpl; [constructor|].
  eapply perm_trans; [apply insert_sorted_perm|now apply perm_skip].
Qed.

Lemma sorted_In (x : A) (l : list A) : In x (sorted leb l) <-> In x l.
Proof.
  split; apply Permutation_in;
    [apply sorted_perm|apply Permutation_sym, sorted_perm].
Qed.

Lemma sorted_length (l : list A) : List.length (sorted leb l) = List.length l.
Proof. apply Permutation_length, sorted_perm. Qed.

Lemma sorted_NoDup (l : list A) : NoDup l -> NoDup (sorted leb l).
Proof.
  intros H. eapply Permutation_NoDup; [apply Permutation_sym, sorted_perm|exact H].
Qed.

Hypothesis Htotal : leb_total leb.
Hypothesis Htrans : leb_trans leb.

Lemma insert_sorted_sorted (x : A) (l : list A) :
  StronglySorted (fun a b => leb a b = true) l ->
  StronglySorted (fun a b => leb a b = true) (insert_sorted leb x l).
Proof.
  induction 1 as [|y t Hs IH Hy]; simpl.
  - repeat constructor.
  - destruct (leb x y) eqn:E.
    + constructor; [now constructor|].
      constructor; [exact E|].
      rewrite Forall_forall in *. intros z Hz. eauto.
    + constructor; [exact IH|].
      rewrite Forall_forall in *. intros z Hz.
      apply (Permutation_in _ (insert_sorted_perm x t)) in Hz.
      destruct Hz as [<-|Hz]; [|now apply Hy].
      destruct (Htotal x y) as [H|H]; [congruence|exact H].
Qed.

Lemma sorted_sorted (l : list A) :
  StronglySorted (fun a b => leb a b = true) (sorted leb l).
Proof.
  induction l as [|x t IH]; simpl; [constructor|].
  now apply insert_sorted_sorted.
Qed.

Lemma insert_sorted_filter_equiv (x a : A) (l : list A) :
  filter (fun y => leb x y && leb y x) (insert_sorted leb a l)
  = filter (fun y => leb x y && leb y x) (a :: l).
Proof.
  induction l as [|y t IH]; [reflexivity|].
  simpl insert_sorted. destruct (leb a y) eqn:E; [reflexivity|].
  cbn [filter] in *. rewrite IH.
  destruct (leb x a && leb a x) eqn:Ea; [|reflexivity].
  destruct (leb x y && leb y x) eqn:Ey; [|reflexivity].
  apply andb_prop in Ea, Ey. destruct Ea as [_ Hax], Ey as [Hxy _].
  rewrite (Htrans _ _ _ Hax Hxy) in E. discriminate.
Qed.

(** [sorted] keeps the elements that compare equal in their input order. *)
Lemma sorted_stable (x : A) (l : list A) :
  filter (fun y => leb x y && leb y x) (sorted leb l)
  = filter (fun y => leb x y && leb y x) l.
Proof.
  induction l as [|a t IH]; [reflexivity|].
  simpl sorted. rewrite insert_sorted_filter_equiv. simpl. now rewrite IH.
Qed.

End SortedFacts.

Section UniqueFacts.

Context {A : Type}.
Variable eqb : A -> A -> bool.
Hypothesis eqb_eq : forall x y, eqb x y = true <-> x = y.

Lemma unique_In (x : A) (l : list A) : In x (unique eqb l) <-> In x l.
Proof.
  induction l as [|y t IH]; simpl; [tauto|].
  rewrite filter_In, IH. split.
  - intros [H|[H _]]; auto.
  - intros [H|H]; [now left|].
    destruct (eqb y x) eqn:E.
    + left. now apply eqb_eq.
    + right. now split.
Qed.

Lemma unique_NoDup (l : list A) : NoDup (unique eqb l).
Proof.
  induction l as [|y t IH]; simpl; constructor.
  - rewrite filter_In. intros [_ H].
    assert (E : eqb y y = true) by now apply eqb_eq.
    rewrite E in H. discriminate.
  - now apply NoDup_filter.
Qed.

Lemma has_duplicates_NoDup (l : list A) :
  NoDup l -> has_duplicates eqb l = false.
Proof.
  induction 1 as [|x t Hx Ht IH]; simpl; [reflexivity|].
  rewrite IH, orb_false_r.
  destruct (existsb (eqb x) t) eqn:E; [|reflexivity].
  apply existsb_exists in E. destruct E as [y [Hy Hxy]].
  apply eqb_eq in Hxy. subst y. contradiction.
Qed.

End UniqueFacts.

(** A kernel that meets the contract of [SortKernel], an insertion sort, to
    run the page on examples. *)
Definition insertion_kernel : SortKernel :=
  {| sort_by := fun A leb l => sorted leb l;
     sort_by_perm := fun A leb l => sorted_perm leb l;
     sort_by_sorted := fun A leb Htot Htr l => sorted_sorted leb Htot Htr l |}.

(* ------------------------------------------------------------------ *)
(** ** The orders used for group keys and options *)

Lemma string_leb_total : leb_total String.leb.
Proof. exact String.leb_total. Qed.

Lemma string_leb_cases (a b : string) :
  String.leb a b = true <-> a = b \/ String_as_OT.lt a b.
Proof.
  unfold String.leb. split.
  - destruct (String.compare a b) eqn:E; try discriminate; intros _.
    + left. now apply String_as_OT.cmp_eq.
    + right. now apply String_as_OT.cmp_lt.
  - intros [->|H].
    + assert (E : String.compare b b = Eq) by now apply String_as_OT.cmp_eq.
      now rewrite E.
    + apply String_as_OT.cmp_lt in H. unfold String_as_OT.cmp in H.
      now rewrite H.
Qed.

Lemma string_leb_trans : leb_trans String.leb.
Proof.
  intros a b c Hab Hbc.
  apply string_leb_cases in Hab, Hbc. apply string_leb_cases.
  destruct Hab as [->|Hab]; [assumption|].
  destruct Hbc as [<-|Hbc]; [now right|].
  right. eapply String_as_OT.lt_trans; eassumption.
Qed.

Lemma string_ltb_of_leb (a b : string) :
  String.leb a b = true -> a <> b -> String.ltb a b = true.
Proof.
  unfold String.leb, String.ltb.
  destruct (String.compare a b) eqn:E; try discriminate; [|reflexivity].
  intros _ Hne. apply String_as_OT.cmp_eq in E. contradiction.
Qed.

Lemma Z_leb_total : leb_total Z.leb.
Proof. intros x y. rewrite !Z.leb_le. lia. Qed.

Lemma Z_leb_trans : leb_trans Z.leb.
Proof. intros x y z. rewrite !Z.leb_le. lia. Qed.

Lemma pair_eqb_eq (a b : Z * string) : pair_eqb a b = true <-> a = b.
Proof.
  destruct a as [d m], b as [d' m']. unfold pair_eqb. simpl.
  rewrite andb_true_iff, Z.eqb_eq, String.eqb_eq.
  split; [intros [-> ->]; reflexivity|intros H; inversion H; auto].
Qed.

(** A sorted list without repetition is strictly increasing. *)
Lemma sorted_strict (l : list string) :
  NoDup l ->
  StronglySorted (fun a b => String.leb a b = true) l ->
  StronglySorted (fun a b => String.ltb a b = true) l.
Proof.
  induction 2 as [|x t Hs IH Hx]; constructor.
  - apply IH. now inversion H.
  - inversion H as [|? ? Hnin Hnd]; subst.
    rewrite Forall_forall in *. intros y Hy.
    apply string_ltb_of_leb; [now apply Hx|].
    intros ->. contradiction.
Qed.

Lemma skipn_In {A : Type} (n : nat) (l : list A) (x : A) :
  In x (skipn n l) -> In x l.
Proof.
  intros H. rewrite <- (firstn_skipn n l). apply in_or_app. now right.
Qed.

Lemma firstn_In {A : Type} (n : nat) (l : list A) (x : A) :
  In x (firstn n l) -> In x l.
Proof.
  intros H. rewrite <- (firstn_skipn n l). apply in_or_app. now left.
Qed.

Lemma StronglySorted_firstn_skipn {A : Type} (R : A -> A -> Prop)
  (n : nat) (l : list A) :
  StronglySorted R l ->
  forall x y, In x (firstn n l) -> In y (skipn n l) -> R x y.
Proof.
  intros Hs. revert n. induction Hs as [|a t Hs IH Ha]; intros n x y Hx Hy.
  - destruct n; contradiction.
  - destruct n as [|n]; simpl in *; [contradiction|].
    destruct Hx as [<-|Hx].
    + rewrite Forall_forall in Ha. apply Ha.
      eapply skipn_In; eauto.
    + eapply IH; eauto.
Qed.

Lemma filter_all {A : Type} (p : A -> bool) (l : list A) :
  (forall x, In x l -> p x = true) -> filter p l = l.
Proof.
  induction l as [|x t IH]; intros H; simpl; [reflexivity|].
  rewrite (H x (or_introl eq_refl)). f_equal. apply IH.
  intros y Hy. apply H. now right.
Qed.

Lemma isin_In (values : list string) (m : string) :
  isin values m = true <-> In m values.
Proof.
  unfold isin. rewrite existsb_exists. split.
  - intros [x [Hx E]]. apply String.eqb_eq in E. now subst.
  - intros H. exists m. split; [exact H|apply String.eqb_refl].
Qed.

(* ------------------------------------------------------------------ *)
(** ** The filter stage *)

Lemma mercados_disponibles_In (df : DataFrame) (sel : Selection) (m : string) :
  In m (mercados_disponibles df sel)
  <-> exists r, In r (df_producto_periodo df sel) /\ mercado r = m.
Proof.
  unfold mercados_disponibles.
  rewrite sorted_In, (unique_In String.eqb String.eqb_eq), in_map_iff.
  split; intros [r [H1 H2]]; exists r; auto.
Qed.

Lemma mercados_disponibles_with (df : DataFrame) (sel : Selection) (ms : list string) :
  mercados_disponibles df (with_mercados sel ms) = mercados_disponibles df sel.
Proof. reflexivity. Qed.

Lemma mercados_disponibles_strict (df : DataFrame) (sel : Selection) :
  StronglySorted (fun a b => String.ltb a b = true) (mercados_disponibles df sel).
Proof.
  unfold mercados_disponibles. apply sorted_strict.
  - apply sorted_NoDup, (unique_NoDup String.eqb String.eqb_eq).
  - apply sorted_sorted; [exact string_leb_total|exact string_leb_trans].
Qed.

Lemma df_producto_periodo_eq (df : DataFrame) (sel : Selection) :
  df_producto_periodo df sel
  = filter (fun r => mask_fecha (start_date sel) (end_date sel) r
                     && eq_producto (producto_sel sel) r) df.
Proof.
  unfold df_producto_periodo, df_periodo.
  induction df as [|r df IH]; simpl; [reflexivity|].
  destruct (mask_fecha (start_date sel) (end_date sel) r); simpl; [|exact IH].
  destruct (eq_producto (producto_sel sel) r); now rewrite IH.
Qed.

(** C7: with nothing picked in the multiselect the view is every row of the
    dataset inside the date range (both ends included) and of the selected
    product, and it is the view obtained by picking every market on offer. *)
Theorem empty_mercados_means_all (df : DataFrame) (sel : Selection) :
  df_producto df (with_mercados sel [])
  = filter (fun r =>
              match fecha r with
              | Some d => (start_date sel <=? d)%Z && (d <=? end_date sel)%Z
              | None => false
              end
              && match producto_sel sel with
                 | Some p => String.eqb (producto r) p
                 | None => false
                 end) df
  /\ df_producto df (with_mercados sel [])
     = df_producto df (with_mercados sel (mercados_disponibles df sel)).
Proof.
  split; [exact (df_producto_periodo_eq df sel)|].
  unfold df_producto. simpl mercados_sel.
  change (df_producto_periodo df (with_mercados sel ?ms))
    with (df_producto_periodo df sel).
  destruct (mercados_disponibles df sel) as [|m ms] eqn:E; [reflexivity|].
  symmetry. apply filter_all. intros r Hr.
  apply isin_In. rewrite <- E. apply mercados_disponibles_In. now exists r.
Qed.

Lemma string_ltb_irrefl (a : string) : String.ltb a a = false.
Proof.
  unfold String.ltb.
  assert (E : String.compare a a = Eq) by now apply String_as_OT.cmp_eq.
  now rewrite E.
Qed.

Lemma mercados_default_small (df : DataFrame) (sel : Selection) :
  (List.length (mercados_disponibles df sel) <= 5)%nat ->
  mercados_default df sel = mercados_disponibles df sel.
Proof.
  intros H. unfold mercados_default.
  apply Nat.leb_le in H. now rewrite H.
Qed.

Lemma mercados_default_large (df : DataFrame) (sel : Selection) :
  (5 < List.length (mercados_disponibles df sel))%nat ->
  mercados_default df sel = firstn 5 (mercados_disponibles df sel).
Proof.
  intros H. unfold mercados_default.
  apply Nat.leb_gt in H. now rewrite H.
Qed.

Lemma df_producto_with (df : DataFrame) (sel : Selection) (ms : list string) :
  ms <> [] ->
  df_producto df (with_mercados sel ms)
  = filter (fun r => isin ms (mercado r)) (df_producto_periodo df sel).
Proof. destruct ms; [contradiction|reflexivity]. Qed.

(** C10: the markets on offer are those of the rows of the selected product
    and date range, in strictly ascending order.  With more than five on
    offer the default of the multiselect is the first five: five markets,
    each before every market left out, and the query with that default keeps
    exactly the rows of those five, so no row of a market left out.  With
    five or fewer on offer the default is all of them. *)
Theorem default_mercados (df : DataFrame) (sel : Selection) :
  StronglySorted (fun a b => String.ltb a b = true) (mercados_disponibles df sel)
  /\ (forall m,
         In m (mercados_disponibles df sel)
         <-> exists r, In r (df_producto_periodo df sel) /\ mercado r = m)
  /\ ((5 < List.length (mercados_disponibles df sel))%nat ->
      mercados_default df sel = firstn 5 (mercados_disponibles df sel)
      /\ List.length (mercados_default df sel) = 5%nat
      /\ skipn 5 (mercados_disponibles df sel) <> []
      /\ (forall a b,
             In a (mercados_default df sel) ->
             In b (skipn 5 (mercados_disponibles df sel)) ->
             String.ltb a b = true)
      /\ df_producto df (with_mercados sel (mercados_default df sel))
         = filter (fun r => isin (firstn 5 (mercados_disponibles df sel)) (mercado r))
             (df_producto_periodo df sel)
      /\ (forall r,
             In (mercado r) (skipn 5 (mercados_disponibles df sel)) ->
             ~ In r (df_producto df (with_mercados sel (mercados_default df sel)))))
  /\ ((List.length (mercados_disponibles df sel) <= 5)%nat ->
      mercados_default df sel = mercados_disponibles df sel).
Proof.
  pose proof (mercados_disponibles_strict df sel) as Hs.
  split; [exact Hs|].
  split; [apply mercados_disponibles_In|].
  split; [|apply mercados_default_small].
  intros Hlen. rewrite (mercados_default_large df sel Hlen).
  assert (Hlt : forall a b,
             In a (firstn 5 (mercados_disponibles df sel)) ->
             In b (skipn 5 (mercados_disponibles df sel)) ->
             String.ltb a b = true)
    by (apply (StronglySorted_firstn_skipn _ 5 _ Hs)).
  assert (Hview : df_producto df
                    (with_mercados sel (firstn 5 (mercados_disponibles df sel)))
                  = filter (fun r => isin (firstn 5 (mercados_disponibles df sel))
                                       (mercado r))
                      (df_producto_periodo df sel)).
  { apply df_producto_with. intros E.
    apply (f_equal (@List.length string)) in E.
    rewrite length_firstn in E. cbn [List.length] in E. lia. }
  split; [reflexivity|].
  split; [rewrite length_firstn; lia|].
  split.
  { intros E. apply (f_equal (@List.length string)) in E.
    rewrite length_skipn in E. cbn [List.length] in E. lia. }
  split; [exact Hlt|].
  split; [exact Hview|].
  intros r Hr Hin. rewrite Hview in Hin.
  apply filter_In in Hin. destruct Hin as [_ Hin]. apply isin_In in Hin.
  specialize (Hlt _ _ Hin Hr). rewrite string_ltb_irrefl in Hlt. discriminate.
Qed.

Lemma default_mercados_six :
  mercados_disponibles six_markets rice_query = ["A"; "B"; "C"; "D"; "E"; "F"]
  /\ mercados_default six_markets rice_query = ["A"; "B"; "C"; "D"; "E"]
  /\ forall r,
      mercado r = "F" ->
      ~ In r (df_producto six_markets
                (with_mercados rice_query (mercados_default six_markets rice_query))).
Proof.
  destruct (default_mercados six_markets rice_query) as (_ & _ & Hlarge & _).
  assert (Hlen : (5 < List.length (mercados_disponibles six_markets rice_query))%nat)
    by (vm_compute; lia).
  destruct (Hlarge Hlen) as (Hd & _ & _ & _ & _ & Hout).
  split; [reflexivity|].
  split; [rewrite Hd; reflexivity|].
  intros r Hr. apply Hout. rewrite Hr. vm_compute. auto.
Defined.

(* ------------------------------------------------------------------ *)
(** ** Reductions: [mean], [min], [max] *)

Lemma Permutation_filter {A : Type} (p : A -> bool) (l l' : list A) :
  Permutation l l' -> Permutation (filter p l) (filter p l').
Proof.
  induction 1 as [|x l l' H IH|x y l|l l' l'' H1 IH1 H2 IH2]; simpl.
  - constructor.
  - destruct (p x); [now constructor|assumption].
  - destruct (p x), (p y); try apply Permutation_refl;
      [apply perm_swap].
  - eapply perm_trans; eassumption.
Qed.

Lemma filter_partition_perm {A : Type} (p : A -> bool) (l : list A) :
  Permutation (filter p l ++ filter (fun x => negb (p x)) l) l.
Proof.
  induction l as [|x t IH]; simpl; [constructor|].
  destruct (p x); simpl.
  - now constructor.
  - eapply perm_trans; [apply Permutation_sym, Permutation_middle|].
    now constructor.
Qed.

Lemma Qsum_perm (l l' : list Q) : Permutation l l' -> Qsum l == Qsum l'.
Proof.
  induction 1 as [|x l l' H IH|x y l|l l' l'' H1 IH1 H2 IH2]; simpl.
  - reflexivity.
  - now rewrite IH.
  - ring.
  - now rewrite IH1.
Qed.

Lemma finites_perm (l l' : list float64) :
  Permutation l l' -> Permutation (finites l) (finites l').
Proof.
  induction 1 as [|x l l' H IH|x y l|l l' l'' H1 IH1 H2 IH2]; simpl.
  - constructor.
  - destruct x; [now constructor|assumption].
  - destruct x, y; try apply Permutation_refl; apply perm_swap.
  - eapply perm_trans; eassumption.
Qed.

Lemma feq_refl (x : float64) : feq x x.
Proof. destruct x; simpl; [reflexivity|exact I]. Qed.

Lemma feq_sym (x y : float64) : feq x y -> feq y x.
Proof. destruct x, y; simpl; auto. intros H. now symmetry. Qed.

Lemma feq_trans (x y z : float64) : feq x y -> feq y z -> feq x z.
Proof.
  destruct x, y, z; simpl; auto; try contradiction.
  intros H1 H2. now rewrite H1.
Qed.

Lemma feq_fval (x y : float64) : feq x y -> fval x == fval y.
Proof. destruct x, y; simpl; try contradiction; auto. reflexivity. Qed.

Lemma feq_notna (x y : float64) : feq x y -> notna x = notna y.
Proof. destruct x, y; simpl; try contradiction; auto. Qed.

(** The mean does not depend on the order of the column. *)
Lemma mean_perm (l l' : list float64) : Permutation l l' -> feq (mean l) (mean l').
Proof.
  intros H. apply finites_perm in H. unfold mean.
  pose proof (Permutation_length H) as Hlen.
  pose proof (Qsum_perm _ _ H) as Hsum.
  destruct (finites l) as [|a t] eqn:E, (finites l') as [|a' t'] eqn:E';
    try discriminate Hlen; cbn [feq]; [exact I|].
  now rewrite Hsum, Hlen.
Qed.

Lemma finites_no_nan (l : list float64) :
  Forall (fun x => x <> NaN) l -> finites l = map fval l.
Proof.
  induction 1 as [|x t Hx Ht IH]; simpl; [reflexivity|].
  destruct x; [now rewrite IH|congruence].
Qed.

Lemma no_nulls_precio (rows : DataFrame) :
  no_nulls rows -> Forall (fun x => x <> NaN) (col_precio rows).
Proof.
  unfold no_nulls, col_precio. rewrite !Forall_forall. intros H x Hx.
  apply in_map_iff in Hx. destruct Hx as [r [<- Hr]]. now apply H.
Qed.

(** On rows without a null the library mean is the arithmetic mean. *)
Lemma mean_arithmetic (rows : DataFrame) :
  rows <> [] -> no_nulls rows ->
  mean (col_precio rows) = Finite (arithmetic_mean rows).
Proof.
  intros Hne Hnn. unfold mean, arithmetic_mean.
  rewrite (finites_no_nan _ (no_nulls_precio _ Hnn)).
  unfold col_precio. rewrite map_map.
  destruct (map (fun r => fval (precio_promedio_por_kilogramo r)) rows)
    as [|a t] eqn:E.
  - apply map_eq_nil in E. contradiction.
  - rewrite <- E. now rewrite length_map.
Qed.

Lemma no_nulls_perm (l l' : DataFrame) :
  Permutation l l' -> no_nulls l -> no_nulls l'.
Proof. unfold no_nulls. intros H. now apply Permutation_Forall. Qed.

Lemma no_nulls_filter (p : Row -> bool) (l : DataFrame) :
  no_nulls l -> no_nulls (filter p l).
Proof.
  unfold no_nulls. rewrite !Forall_forall. intros H r Hr.
  apply filter_In in Hr. now apply H.
Qed.

(** Every view cut from a loaded dataset is without nulls. *)
Lemma df_producto_no_nulls (df : DataFrame) (sel : Selection) :
  no_nulls df -> no_nulls (df_producto df sel).
Proof.
  intros H. unfold df_producto, df_producto_periodo, df_periodo.
  destruct (mercados_sel sel); repeat apply no_nulls_filter; exact H.
Qed.

Lemma loaded_view_no_nulls (parse_float : string -> option Q)
  (rows : list RawRow) (sel : Selection) :
  no_nulls (df_producto (normalize_frame parse_float rows) sel).
Proof. apply df_producto_no_nulls, normalize_frame_notna. Qed.

Lemma series_min_spec (l : list (option Z)) :
  match series_min l with
  | Some d => In (Some d) l /\ forall d', In (Some d') l -> (d <= d')%Z
  | None => forall d', ~ In (Some d') l
  end.
Proof.
  induction l as [|a t IH]; simpl; [intros d' []|].
  destruct a as [x|], (series_min t) as [y|]; simpl.
  - destruct IH as [Hin Hle]. split.
    + destruct (Z.min_spec x y) as [[_ ->]|[_ ->]]; auto.
    + intros d' [E|H]; [inversion E; lia|]. specialize (Hle _ H). lia.
  - split; [now left|]. intros d' [E|H]; [inversion E; lia|].
    now apply IH in H.
  - destruct IH as [Hin Hle]. split; [now right|].
    intros d' [E|H]; [discriminate|now apply Hle].
  - intros d' [E|H]; [discriminate|now apply IH in H].
Qed.

Lemma series_max_spec (l : list (option Z)) :
  match series_max l with
  | Some d => In (Some d) l /\ forall d', In (Some d') l -> (d' <= d)%Z
  | None => forall d', ~ In (Some d') l
  end.
Proof.
  induction l as [|a t IH]; simpl; [intros d' []|].
  destruct a as [x|], (series_max t) as [y|]; simpl.
  - destruct IH as [Hin Hle]. split.
    + destruct (Z.max_spec x y) as [[_ ->]|[_ ->]]; auto.
    + intros d' [E|H]; [inversion E; lia|]. specialize (Hle _ H). lia.
  - split; [now left|]. intros d' [E|H]; [inversion E; lia|].
    now apply IH in H.
  - destruct IH as [Hin Hle]. split; [now right|].
    intros d' [E|H]; [discriminate|now apply Hle].
  - intros d' [E|H]; [discriminate|now apply IH in H].
Qed.

Lemma series_min_least (l : list (option Z)) (d : Z) :
  In (Some d) l -> (forall d', In (Some d') l -> (d <= d')%Z) ->
  series_min l = Some d.
Proof.
  intros Hin Hle. pose proof (series_min_spec l) as H.
  destruct (series_min l) as [d0|].
  - destruct H as [H0 H1]. f_equal.
    specialize (Hle _ H0). specialize (H1 _ Hin). lia.
  - now apply H in Hin.
Qed.

Lemma series_max_greatest (l : list (option Z)) (d : Z) :
  In (Some d) l -> (forall d', In (Some d') l -> (d' <= d)%Z) ->
  series_max l = Some d.
Proof.
  intros Hin Hle. pose proof (series_max_spec l) as H.
  destruct (series_max l) as [d0|].
  - destruct H as [H0 H1]. f_equal.
    specialize (Hle _ H0). specialize (H1 _ Hin). lia.
  - now apply H in Hin.
Qed.

Lemma series_min_perm (l l' : list (option Z)) :
  Permutation l l' -> series_min l = series_min l'.
Proof.
  intros H. pose proof (series_min_spec l) as Hl.
  destruct (series_min l) as [d|].
  - destruct Hl as [Hin Hle]. symmetry. apply series_min_least.
    + eapply Permutation_in; eassumption.
    + intros d' Hd'. apply Hle.
      eapply Permutation_in; [apply Permutation_sym|]; eassumption.
  - pose proof (series_min_spec l') as Hl'.
    destruct (series_min l') as [d'|]; [|reflexivity].
    destruct Hl' as [Hin _]. exfalso. apply (Hl d').
    eapply Permutation_in; [apply Permutation_sym|]; eassumption.
Qed.

Lemma series_max_perm (l l' : list (option Z)) :
  Permutation l l' -> series_max l = series_max l'.
Proof.
  intros H. pose proof (series_max_spec l) as Hl.
  destruct (series_max l) as [d|].
  - destruct Hl as [Hin Hle]. symmetry. apply series_max_greatest.
    + eapply Permutation_in; eassumption.
    + intros d' Hd'. apply Hle.
      eapply Permutation_in; [apply Permutation_sym|]; eassumption.
  - pose proof (series_max_spec l') as Hl'.
    destruct (series_max l') as [d'|]; [|reflexivity].
    destruct Hl' as [Hin _]. exfalso. apply (Hl d').
    eapply Permutation_in; [apply Permutation_sym|]; eassumption.
Qed.

(* ------------------------------------------------------------------ *)
(** ** Indicators *)

Section IndicatorFacts.

Context {K : SortKernel}.

Lemma df_producto_sorted_perm (view : DataFrame) :
  Permutation (df_producto_sorted view) view.
Proof.
  unfold df_producto_sorted, sort_values_fecha.
  eapply perm_trans; [|apply (filter_partition_perm (fun r => notna_fecha (fecha r)))].
  apply Permutation_app_tail, sort_by_perm.
Qed.

Lemma df_producto_sorted_In (view : DataFrame) (r : Row) :
  In r (df_producto_sorted view) <-> In r view.
Proof.
  split; apply Permutation_in;
    [|apply Permutation_sym]; apply df_producto_sorted_perm.
Qed.

Lemma primer_fecha_eq (view : DataFrame) :
  primer_fecha view = series_min (map fecha view).
Proof.
  apply series_min_perm, Permutation_map, df_producto_sorted_perm.
Qed.

Lemma ultima_fecha_eq (view : DataFrame) :
  ultima_fecha view = series_max (map fecha view).
Proof.
  apply series_max_perm, Permutation_map, df_producto_sorted_perm.
Qed.

Lemma no_nulls_has_date (view : DataFrame) :
  view <> [] -> no_nulls view -> exists r d, In r view /\ fecha r = Some d.
Proof.
  destruct view as [|r view]; [contradiction|]. intros _ H.
  inversion H as [|? ? [Hd _] _]; subst.
  destruct (fecha r) as [d|] eqn:E; [|contradiction].
  exists r, d. split; [now left|exact E].
Qed.

Lemma primer_fecha_earliest (view : DataFrame) :
  view <> [] -> no_nulls view ->
  exists d, primer_fecha view = Some d /\ earliest_date d view.
Proof.
  intros Hne Hnn. rewrite primer_fecha_eq.
  pose proof (series_min_spec (map fecha view)) as H.
  destruct (series_min (map fecha view)) as [d|].
  - exists d. split; [reflexivity|]. destruct H as [Hin Hle]. split.
    + apply in_map_iff in Hin. destruct Hin as [r [E Hr]]. now exists r.
    + intros r d' Hr E. apply Hle. rewrite <- E. now apply in_map.
  - destruct (no_nulls_has_date view Hne Hnn) as [r [d [Hr E]]].
    exfalso. apply (H d). rewrite <- E. now apply in_map.
Qed.

Lemma ultima_fecha_latest (view : DataFrame) :
  view <> [] -> no_nulls view ->
  exists d, ultima_fecha view = Some d /\ latest_date d view.
Proof.
  intros Hne Hnn. rewrite ultima_fecha_eq.
  pose proof (series_max_spec (map fecha view)) as H.
  destruct (series_max (map fecha view)) as [d|].
  - exists d. split; [reflexivity|]. destruct H as [Hin Hle]. split.
    + apply in_map_iff in Hin. destruct Hin as [r [E Hr]]. now exists r.
    + intros r d' Hr E. apply Hle. rewrite <- E. now apply in_map.
  - destruct (no_nulls_has_date view Hne Hnn) as [r [d [Hr E]]].
    exfalso. apply (H d). rewrite <- E. now apply in_map.
Qed.

(** A mean taken over a selection of the sorted frame is the mean over the
    same selection of the view. *)
Lemma mean_sorted_filter (p : Row -> bool) (view : DataFrame) :
  feq (mean (col_precio (filter p (df_producto_sorted view))))
      (mean (col_precio (filter p view))).
Proof.
  apply mean_perm. unfold col_precio.
  apply Permutation_map, Permutation_filter, df_producto_sorted_perm.
Qed.

Lemma mean_sorted (view : DataFrame) :
  feq (mean (col_precio (df_producto_sorted view))) (mean (col_precio view)).
Proof.
  apply mean_perm. unfold col_precio.
  apply Permutation_map, df_producto_sorted_perm.
Qed.

Lemma filter_eq_fecha_nonempty (d : Z) (view : DataFrame) :
  (exists r, In r view /\ fecha r = Some d) ->
  filter (eq_fecha (Some d)) view <> [].
Proof.
  intros [r [Hr E]] Habs.
  assert (H : In r (filter (eq_fecha (Some d)) view)).
  { apply filter_In. split; [exact Hr|].
    unfold eq_fecha. rewrite E. apply Z.eqb_refl. }
  rewrite Habs in H. contradiction.
Qed.

Lemma precio_inicial_mean (view : DataFrame) (d : Z) :
  no_nulls view -> primer_fecha view = Some d -> earliest_date d view ->
  feq (precio_inicial view)
      (Finite (arithmetic_mean (filter (eq_fecha (Some d)) view))).
Proof.
  intros Hnn Hd [Hex _]. unfold precio_inicial. rewrite Hd.
  rewrite <- mean_arithmetic.
  - apply mean_sorted_filter.
  - now apply filter_eq_fecha_nonempty.
  - now apply no_nulls_filter.
Qed.

Lemma precio_final_mean (view : DataFrame) (d : Z) :
  no_nulls view -> ultima_fecha view = Some d -> latest_date d view ->
  feq (precio_final view)
      (Finite (arithmetic_mean (filter (eq_fecha (Some d)) view))).
Proof.
  intros Hnn Hd [Hex _]. unfold precio_final. rewrite Hd.
  rewrite <- mean_arithmetic.
  - apply mean_sorted_filter.
  - now apply filter_eq_fecha_nonempty.
  - now apply no_nulls_filter.
Qed.

Lemma precio_prom_periodo_mean (view : DataFrame) :
  view <> [] -> no_nulls view ->
  feq (precio_prom_periodo view) (Finite (arithmetic_mean view)).
Proof.
  intros Hne Hnn. unfold precio_prom_periodo.
  rewrite <- (mean_arithmetic view Hne Hnn). apply mean_sorted.
Qed.

Lemma feq_Finite_inv (x : float64) (q : Q) :
  feq x (Finite q) -> exists q', x = Finite q' /\ q' == q.
Proof. destruct x as [q'|]; simpl; [|contradiction]. intros H. now exists q'. Qed.

Lemma variacion_pct_none (view : DataFrame) :
  variacion_pct view = None
  <-> precio_inicial view = NaN
      \/ exists q, precio_inicial view = Finite q /\ q <= 0.
Proof.
  unfold variacion_pct, fgt.
  destruct (precio_inicial view) as [q|].
  - destruct (Qle_bool q 0) eqn:E; simpl.
    + split; [|reflexivity]. intros _. right. exists q.
      split; [reflexivity|now apply Qle_bool_iff].
    + split; [discriminate|]. intros [H|[q' [H Hle]]]; [discriminate|].
      inversion H; subst q'. apply Qle_bool_iff in Hle. congruence.
  - split; [now left|reflexivity].
Qed.

Lemma variacion_pct_value (view : DataFrame) (p q : Q) :
  precio_inicial view = Finite q -> precio_final view = Finite p -> 0 < q ->
  variacion_pct view = Some (Finite ((p / q - 1) * 100)).
Proof.
  intros Hi Hf Hq. unfold variacion_pct. rewrite Hi, Hf. simpl.
  destruct (Qle_bool q 0) eqn:E.
  - apply Qle_bool_iff in E. lra.
  - simpl. destruct (Qeq_bool q 0) eqn:E0; [|reflexivity].
    apply Qeq_bool_iff in E0. lra.
Qed.

End IndicatorFacts.

Lemma Qsum_nonneg (l : list Q) : Forall (fun x => 0 <= x) l -> 0 <= Qsum l.
Proof.
  induction 1 as [|x t Hx Ht IH]; simpl; [apply Qle_refl|].
  replace 0 with (0 + 0) by reflexivity. now apply Qplus_le_compat.
Qed.

Lemma arithmetic_mean_nonneg (rows : DataFrame) :
  (forall r, In r rows -> 0 <= fval (precio_promedio_por_kilogramo r)) ->
  0 <= arithmetic_mean rows.
Proof.
  intros H. unfold arithmetic_mean.
  assert (Hs : 0 <= Qsum (map (fun r => fval (precio_promedio_por_kilogramo r)) rows)).
  { apply Qsum_nonneg, Forall_forall. intros x Hx.
    apply in_map_iff in Hx. destruct Hx as [r [<- Hr]]. now apply H. }
  destruct rows as [|r rows].
  - simpl. unfold Qdiv. simpl. rewrite Qmult_0_l. apply Qle_refl.
  - apply Qle_shift_div_l.
    + unfold Qlt. simpl. lia.
    + now rewrite Qmult_0_l.
Qed.

Lemma series_min_max_const (l : list (option Z)) (d : Z) :
  (forall x, In x l -> x = Some d) -> series_min l = series_max l.
Proof.
  induction l as [|a t IH]; intros H; simpl; [reflexivity|].
  rewrite <- IH by (intros x Hx; apply H; now right).
  rewrite (H a (or_introl eq_refl)).
  assert (Ht : series_min t = None \/ series_min t = Some d).
  { pose proof (series_min_spec t) as Hs.
    destruct (series_min t) as [y|]; [|now left].
    right. destruct Hs as [Hin _]. apply H. now right. }
  destruct Ht as [->| ->]; simpl; [reflexivity|].
  now rewrite Z.min_id, Z.max_id.
Qed.

Lemma filter_eq_fecha_dated (d : Z) (view : DataFrame) :
  filter (eq_fecha (Some d)) view = dated d view.
Proof.
  unfold dated. apply filter_ext. intros r. unfold eq_fecha.
  destruct (fecha r); reflexivity.
Qed.

Lemma dated_In (d : Z) (view : DataFrame) (r : Row) :
  In r (dated d view) <-> In r view /\ fecha r = Some d.
Proof.
  unfold dated. rewrite filter_In. destruct (fecha r) as [x|].
  - rewrite Z.eqb_eq. split; intros [H E]; (split; [exact H|congruence]).
  - split; intros [H E]; discriminate.
Qed.

(** C4: on a non-empty view without nulls the first and last dates the code
    finds are the earliest and the latest date of the view; the initial
    price is the arithmetic mean of the prices of all rows whose date is the
    earliest date, the final price the same at the latest date, and the
    period average the arithmetic mean over every row of the view. *)
Theorem indicators_are_means {K : SortKernel} (view : DataFrame) :
  view <> [] -> no_nulls view ->
  exists d0 d1,
    primer_fecha view = Some d0 /\ earliest_date d0 view
    /\ ultima_fecha view = Some d1 /\ latest_date d1 view
    /\ (forall r, In r (dated d0 view) <-> In r view /\ fecha r = Some d0)
    /\ (forall r, In r (dated d1 view) <-> In r view /\ fecha r = Some d1)
    /\ feq (precio_inicial view) (Finite (arithmetic_mean (dated d0 view)))
    /\ feq (precio_final view) (Finite (arithmetic_mean (dated d1 view)))
    /\ feq (precio_prom_periodo view) (Finite (arithmetic_mean view)).
Proof.
  intros Hne Hnn.
  destruct (primer_fecha_earliest view Hne Hnn) as [d0 [H0 E0]].
  destruct (ultima_fecha_latest view Hne Hnn) as [d1 [H1 E1]].
  exists d0, d1.
  split; [exact H0|]. split; [exact E0|].
  split; [exact H1|]. split; [exact E1|].
  split; [intros r; apply dated_In|].
  split; [intros r; apply dated_In|].
  split; [rewrite <- filter_eq_fecha_dated; now apply precio_inicial_mean|].
  split; [rewrite <- filter_eq_fecha_dated; now apply precio_final_mean|].
  now apply precio_prom_periodo_mean.
Qed.

Lemma rice_view_no_nulls : rice_view <> [] /\ no_nulls rice_view.
Proof. split; [discriminate|]. repeat constructor; discriminate. Defined.

Lemma rising_view_no_nulls : rising_view <> [] /\ no_nulls rising_view.
Proof. split; [discriminate|]. repeat constructor; discriminate. Defined.

(** The scenario of C4 under the insertion kernel: 1500, 1500 and 1500; and
    a view whose three indicators differ: 1500 on the first day (1000 and
    2000), 3000 on the last day, 2000 over the period. *)
Lemma indicators_scenarios :
  (rice_view <> [] /\ no_nulls rice_view
   /\ feq (precio_inicial (K := insertion_kernel) rice_view) (Finite 1500)
   /\ feq (precio_final (K := insertion_kernel) rice_view) (Finite 1500)
   /\ feq (precio_prom_periodo (K := insertion_kernel) rice_view) (Finite 1500))
  /\ (rising_view <> [] /\ no_nulls rising_view
      /\ feq (precio_inicial (K := insertion_kernel) rising_view) (Finite 1500)
      /\ feq (precio_final (K := insertion_kernel) rising_view) (Finite 3000)
      /\ feq (precio_prom_periodo (K := insertion_kernel) rising_view)
           (Finite 2000)).
Proof.
  split.
  - destruct rice_view_no_nulls as [Hne Hnn].
    split; [exact Hne|]. split; [exact Hnn|].
    destruct (indicators_are_means (K := insertion_kernel) rice_view Hne Hnn)
      as (d0 & d1 & H0 & _ & H1 & _ & _ & _ & Hi & Hf & Hp).
    vm_compute in H0. vm_compute in H1.
    inversion H0; subst d0. inversion H1; subst d1.
    split; [|split].
    + eapply feq_trans; [exact Hi|]. vm_compute. reflexivity.
    + eapply feq_trans; [exact Hf|]. vm_compute. reflexivity.
    + eapply feq_trans; [exact Hp|]. vm_compute. reflexivity.
  - destruct rising_view_no_nulls as [Hne Hnn].
    split; [exact Hne|]. split; [exact Hnn|].
    destruct (indicators_are_means (K := insertion_kernel) rising_view Hne Hnn)
      as (d0 & d1 & H0 & _ & H1 & _ & _ & _ & Hi & Hf & Hp).
    vm_compute in H0. vm_compute in H1.
    inversion H0; subst d0. inversion H1; subst d1.
    split; [|split].
    + eapply feq_trans; [exact Hi|]. vm_compute. reflexivity.
    + eapply feq_trans; [exact Hf|]. vm_compute. reflexivity.
    + eapply feq_trans; [exact Hp|]. vm_compute. reflexivity.
Defined.

(** The scenario on any sort kernel: initial and final price 1500, period
    average 1500 and variation 0. *)
Lemma rice_scenario_any_kernel {K : SortKernel} :
  feq (precio_inicial rice_view) (Finite 1500)
  /\ feq (precio_final rice_view) (Finite 1500)
  /\ feq (precio_prom_periodo rice_view) (Finite 1500)
  /\ exists v, variacion_pct rice_view = Some (Finite v) /\ v == 0.
Proof.
  destruct rice_view_no_nulls as [Hne Hnn].
  assert (H0 : primer_fecha rice_view = Some 19358%Z)
    by (rewrite primer_fecha_eq; reflexivity).
  assert (H1 : ultima_fecha rice_view = Some 19389%Z)
    by (rewrite ultima_fecha_eq; reflexivity).
  assert (Hi : feq (precio_inicial rice_view) (Finite 1500)).
  { eapply feq_trans; [apply (precio_inicial_mean rice_view 19358 Hnn H0)|].
    - destruct (primer_fecha_earliest rice_view Hne Hnn) as [d [Hd He]].
      rewrite H0 in Hd. inversion Hd; subst d. exact He.
    - vm_compute. reflexivity. }
  assert (Hf : feq (precio_final rice_view) (Finite 1500)).
  { eapply feq_trans; [apply (precio_final_mean rice_view 19389 Hnn H1)|].
    - destruct (ultima_fecha_latest rice_view Hne Hnn) as [d [Hd He]].
      rewrite H1 in Hd. inversion Hd; subst d. exact He.
    - vm_compute. reflexivity. }
  split; [exact Hi|]. split; [exact Hf|].
  split.
  { eapply feq_trans; [apply (precio_prom_periodo_mean rice_view Hne Hnn)|].
    vm_compute. reflexivity. }
  destruct (feq_Finite_inv _ _ Hi) as [q [Eq Hq]].
  destruct (feq_Finite_inv _ _ Hf) as [p [Ep Hp]].
  exists ((p / q - 1) * 100). split.
  - apply variacion_pct_value; [assumption|assumption|]. rewrite Hq. reflexivity.
  - rewrite Hp, Hq. reflexivity.
Qed.

(** C3 (amended): the variation is [None] exactly when the initial price is
    not strictly positive, that is undefined, zero or negative; on a strictly
    positive initial price it is [(final / initial - 1) * 100]; on a zero
    initial price it is [None], hence neither infinite nor NaN.  On a
    non-empty view without nulls both prices are defined, and when no price
    of the view is negative the variation is [None] exactly when the initial
    price is zero. *)
Theorem variacion_pct_guard {K : SortKernel} (view : DataFrame) :
  (variacion_pct view = None
   <-> precio_inicial view = NaN
       \/ exists q, precio_inicial view = Finite q /\ q <= 0)
  /\ (forall p q,
         precio_inicial view = Finite q -> precio_final view = Finite p ->
         0 < q ->
         variacion_pct view = Some (Finite ((p / q - 1) * 100)))
  /\ (forall q,
         precio_inicial view = Finite q -> q == 0 -> variacion_pct view = None)
  /\ (view <> [] -> no_nulls view ->
      (exists p q, precio_inicial view = Finite q /\ precio_final view = Finite p)
      /\ ((forall r, In r view -> 0 <= fval (precio_promedio_por_kilogramo r)) ->
          (variacion_pct view = None
           <-> exists q, precio_inicial view = Finite q /\ q == 0))).
Proof.
  split; [apply variacion_pct_none|].
  split; [intros p q; apply variacion_pct_value|].
  split.
  { intros q Hq H0. apply variacion_pct_none. right. exists q.
    split; [exact Hq|]. rewrite H0. apply Qle_refl. }
  intros Hne Hnn.
  destruct (primer_fecha_earliest view Hne Hnn) as [d0 [H0 E0]].
  destruct (ultima_fecha_latest view Hne Hnn) as [d1 [H1 E1]].
  pose proof (precio_inicial_mean view d0 Hnn H0 E0) as Hi.
  pose proof (precio_final_mean view d1 Hnn H1 E1) as Hf.
  destruct (feq_Finite_inv _ _ Hi) as [q [Eq Hq]].
  destruct (feq_Finite_inv _ _ Hf) as [p [Ep Hp]].
  split; [exists p, q; now split|].
  intros Hpos.
  assert (Hq0 : 0 <= q).
  { rewrite Hq. apply arithmetic_mean_nonneg. intros r Hr.
    apply filter_In in Hr. now apply Hpos. }
  rewrite variacion_pct_none. rewrite Eq. split.
  - intros [H|[q' [H Hle]]]; [discriminate|].
    inversion H; subst q'. exists q. split; [reflexivity|].
    apply Qle_antisym; assumption.
  - intros [q' [H Hz]]. right. exists q'. split; [exact H|].
    rewrite Hz. apply Qle_refl.
Qed.

Lemma negative_price_view_no_nulls :
  negative_price_view <> [] /\ no_nulls negative_price_view.
Proof. split; [discriminate|]. repeat constructor; discriminate. Defined.

Lemma variacion_pct_guard_witness :
  negative_price_view <> [] /\ no_nulls negative_price_view
  /\ exists p q,
      precio_inicial (K := insertion_kernel) negative_price_view = Finite q
      /\ precio_final (K := insertion_kernel) negative_price_view = Finite p.
Proof.
  destruct negative_price_view_no_nulls as [Hne Hnn].
  split; [exact Hne|]. split; [exact Hnn|].
  exact (proj1 (proj2 (proj2 (proj2
           (variacion_pct_guard (K := insertion_kernel) negative_price_view)))
           Hne Hnn)).
Defined.

(** C3, as stated, fails: a file whose only price reads [-5] loads; its view
    has the initial and the final price [-5], neither zero nor undefined, and
    the variation is [None] where the claim gives [(-5 / -5 - 1) * 100]. *)
Lemma negative_price_no_variation :
  exists q p,
    precio_inicial (K := insertion_kernel) negative_price_view = Finite q
    /\ precio_final (K := insertion_kernel) negative_price_view = Finite p
    /\ ~ q == 0
    /\ variacion_pct (K := insertion_kernel) negative_price_view = None
    /\ variacion_pct (K := insertion_kernel) negative_price_view
       <> Some (Finite ((p / q - 1) * 100)).
Proof.
  eexists. eexists.
  split; [vm_compute; reflexivity|].
  split; [vm_compute; reflexivity|].
  split; [intros H; vm_compute in H; discriminate|].
  split; [vm_compute; reflexivity|].
  vm_compute. discriminate.
Qed.

(** C8: when every row of the view carries the same date the initial and
    the final price are the same value, and a variation that is defined
    is 0. *)
Theorem single_date_view {K : SortKernel} (view : DataFrame) (d : Z) :
  view <> [] ->
  (forall r, In r view -> fecha r = Some d) ->
  precio_inicial view = precio_final view
  /\ forall v, variacion_pct view = Some v -> feq v (Finite 0).
Proof.
  intros _ Hd.
  assert (E : primer_fecha view = ultima_fecha view).
  { unfold primer_fecha, ultima_fecha.
    apply (series_min_max_const _ d). intros x Hx.
    apply in_map_iff in Hx. destruct Hx as [r [<- Hr]].
    apply Hd. now apply df_producto_sorted_In. }
  assert (Ep : precio_inicial view = precio_final view).
  { unfold precio_inicial, precio_final. now rewrite E. }
  split; [exact Ep|].
  intros v Hv. unfold variacion_pct in Hv. rewrite <- Ep in Hv.
  destruct (precio_inicial view) as [q|]; simpl in Hv; [|discriminate].
  destruct (Qle_bool q 0) eqn:Hle; simpl in Hv; [discriminate|].
  assert (Hq : ~ q == 0).
  { intros H0. rewrite <- not_true_iff_false in Hle. apply Hle.
    apply Qle_bool_iff. rewrite H0. apply Qle_refl. }
  destruct (Qeq_bool q 0) eqn:E0.
  { apply Qeq_bool_iff in E0. contradiction. }
  inversion Hv; subst v. simpl. field. exact Hq.
Qed.

Lemma single_date_view_witness :
  rice_first_day <> []
  /\ (forall r, In r rice_first_day -> fecha r = Some 19358%Z)
  /\ precio_inicial (K := insertion_kernel) rice_first_day
     = precio_final (K := insertion_kernel) rice_first_day
  /\ forall v,
      variacion_pct (K := insertion_kernel) rice_first_day = Some v ->
      feq v (Finite 0).
Proof.
  assert (Hne : rice_first_day <> []) by discriminate.
  assert (Hd : forall r, In r rice_first_day -> fecha r = Some 19358%Z).
  { intros r [<-|[<-|[]]]; reflexivity. }
  split; [exact Hne|]. split; [exact Hd|].
  exact (single_date_view (K := insertion_kernel) rice_first_day 19358 Hne Hd).
Defined.

(* ------------------------------------------------------------------ *)
(** ** Ranking *)

Lemma Qle_bool_total (x y : Q) : Qle_bool x y = true \/ Qle_bool y x = true.
Proof.
  rewrite !Qle_bool_iff. destruct (Qlt_le_dec x y) as [H|H]; [left|right]; lra.
Qed.

Lemma ascending_leb_total :
  leb_total (fun x y : string * float64 => Qle_bool (fval (snd x)) (fval (snd y))).
Proof. intros x y. apply Qle_bool_total. Qed.

Lemma descending_leb_total :
  leb_total (fun x y : string * float64 => Qle_bool (fval (snd y)) (fval (snd x))).
Proof. intros x y. apply Qle_bool_total. Qed.

Lemma ascending_leb_trans :
  leb_trans (fun x y : string * float64 => Qle_bool (fval (snd x)) (fval (snd y))).
Proof. intros x y z. rewrite !Qle_bool_iff. lra. Qed.

Lemma descending_leb_trans :
  leb_trans (fun x y : string * float64 => Qle_bool (fval (snd y)) (fval (snd x))).
Proof. intros x y z. rewrite !Qle_bool_iff. lra. Qed.

Lemma StronglySorted_impl {A : Type} (R R' : A -> A -> Prop) (l : list A) :
  (forall x y, R x y -> R' x y) -> StronglySorted R l -> StronglySorted R' l.
Proof.
  intros H. induction 1 as [|x t Hs IH Hx]; constructor; [exact IH|].
  eapply Forall_impl; [|exact Hx]. intros y. apply H.
Qed.

Lemma filter_none {A : Type} (p : A -> bool) (l : list A) :
  (forall x, In x l -> p x = true) -> filter (fun x => negb (p x)) l = [].
Proof.
  induction l as [|x t IH]; intros H; simpl; [reflexivity|].
  rewrite (H x (or_introl eq_refl)). simpl. apply IH.
  intros y Hy. apply H. now right.
Qed.

Lemma groupby_mercado_mean_keys (df : DataFrame) :
  map fst (groupby_mercado_mean df)
  = sorted String.leb (unique String.eqb (map mercado df)).
Proof.
  unfold groupby_mercado_mean. rewrite map_map. simpl. apply map_id.
Qed.

Lemma groupby_mercado_mean_In (df : DataFrame) (m : string) (v : float64) :
  In (m, v) (groupby_mercado_mean df) ->
  (exists r, In r df /\ mercado r = m)
  /\ v = mean (col_precio (of_mercado m df)).
Proof.
  unfold groupby_mercado_mean. intros H.
  apply in_map_iff in H. destruct H as [k [E Hk]].
  inversion E; subst. split; [|reflexivity].
  rewrite sorted_In, (unique_In String.eqb String.eqb_eq), in_map_iff in Hk.
  destruct Hk as [r [E' Hr]]. now exists r.
Qed.

Lemma of_mercado_nonempty (m : string) (df : DataFrame) :
  (exists r, In r df /\ mercado r = m) -> of_mercado m df <> [].
Proof.
  intros [r [Hr E]] Habs.
  assert (H : In r (of_mercado m df)).
  { apply filter_In. split; [exact Hr|]. rewrite E. apply String.eqb_refl. }
  rewrite Habs in H. contradiction.
Qed.

Lemma groupby_mercado_mean_notna (df : DataFrame) :
  no_nulls df ->
  forall x, In x (groupby_mercado_mean df) -> notna (snd x) = true.
Proof.
  intros Hnn [m v] H. apply groupby_mercado_mean_In in H.
  destruct H as [Hex ->]. simpl.
  rewrite mean_arithmetic; [reflexivity| |].
  - now apply of_mercado_nonempty.
  - now apply no_nulls_filter.
Qed.

Section RankingFacts.

Context {K : SortKernel}.

Lemma sort_values_notna (ascending : bool) (s : list (string * float64)) :
  (forall x, In x s -> notna (snd x) = true) ->
  sort_values ascending s
  = sort_by (fun x y => if ascending
                        then Qle_bool (fval (snd x)) (fval (snd y))
                        else Qle_bool (fval (snd y)) (fval (snd x))) s.
Proof.
  intros H. unfold sort_values.
  rewrite (filter_none (fun x => notna (snd x)) s H), app_nil_r.
  now rewrite (filter_all (fun x => notna (snd x)) s H).
Qed.

Lemma sort_values_perm (ascending : bool) (s : list (string * float64)) :
  Permutation (sort_values ascending s) s.
Proof.
  unfold sort_values.
  eapply perm_trans; [|apply (filter_partition_perm (fun x => notna (snd x)))].
  apply Permutation_app_tail, sort_by_perm.
Qed.

Lemma sort_values_descending (s : list (string * float64)) :
  (forall x, In x s -> notna (snd x) = true) ->
  descending (sort_values false s).
Proof.
  intros H. rewrite (sort_values_notna false s H). unfold descending.
  eapply StronglySorted_impl;
    [|apply sort_by_sorted;
       [exact descending_leb_total|exact descending_leb_trans]].
  intros x y. simpl. apply Qle_bool_iff.
Qed.

Lemma sort_values_ascending (s : list (string * float64)) :
  (forall x, In x s -> notna (snd x) = true) ->
  ascending (sort_values true s).
Proof.
  intros H. rewrite (sort_values_notna true s H). unfold ascending.
  eapply StronglySorted_impl;
    [|apply sort_by_sorted;
       [exact ascending_leb_total|exact ascending_leb_trans]].
  intros x y. simpl. apply Qle_bool_iff.
Qed.

Lemma ranking_mercados_perm (view : DataFrame) :
  Permutation (ranking_mercados view)
    (groupby_mercado_mean (df_producto_sorted view)).
Proof. apply sort_values_perm. Qed.

Lemma ranking_mercados_notna (view : DataFrame) :
  no_nulls view ->
  forall x, In x (ranking_mercados view) -> notna (snd x) = true.
Proof.
  intros Hnn x Hx.
  apply (Permutation_in _ (ranking_mercados_perm view)) in Hx.
  revert x Hx. apply groupby_mercado_mean_notna.
  eapply no_nulls_perm; [apply Permutation_sym, df_producto_sorted_perm|exact Hnn].
Qed.

Lemma ranking_mercados_keys (view : DataFrame) :
  NoDup (map fst (ranking_mercados view))
  /\ forall m, In m (map fst (ranking_mercados view))
               <-> exists r, In r view /\ mercado r = m.
Proof.
  pose proof (Permutation_map fst (ranking_mercados_perm view)) as Hp.
  rewrite groupby_mercado_mean_keys in Hp. split.
  - eapply Permutation_NoDup; [apply Permutation_sym, Hp|].
    apply sorted_NoDup, (unique_NoDup String.eqb String.eqb_eq).
  - intros m. split.
    + intros H. apply (Permutation_in _ Hp) in H.
      rewrite sorted_In, (unique_In String.eqb String.eqb_eq), in_map_iff in H.
      destruct H as [r [E Hr]]. exists r.
      split; [now apply df_producto_sorted_In|exact E].
    + intros [r [Hr E]].
      apply (Permutation_in _ (Permutation_sym Hp)).
      rewrite sorted_In, (unique_In String.eqb String.eqb_eq), in_map_iff.
      exists r. split; [exact E|now apply df_producto_sorted_In].
Qed.

Lemma ranking_mercados_length (view : DataFrame) :
  List.length (ranking_mercados view) = n_markets view.
Proof.
  destruct (ranking_mercados_keys view) as [Hnd Hin].
  rewrite <- (length_map fst). unfold n_markets.
  apply Permutation_length, NoDup_Permutation.
  - exact Hnd.
  - apply (unique_NoDup String.eqb String.eqb_eq).
  - intros m. rewrite Hin, (unique_In String.eqb String.eqb_eq), in_map_iff.
    split; intros [r [H1 H2]]; exists r; auto.
Qed.

Lemma ranking_mercados_value (view : DataFrame) (m : string) (v : float64) :
  no_nulls view -> In (m, v) (ranking_mercados view) ->
  feq v (Finite (arithmetic_mean (of_mercado m view))).
Proof.
  intros Hnn H.
  apply (Permutation_in _ (ranking_mercados_perm view)) in H.
  apply groupby_mercado_mean_In in H. destruct H as [[r [Hr E]] ->].
  rewrite df_producto_sorted_In in Hr.
  rewrite <- mean_arithmetic.
  - apply mean_sorted_filter.
  - apply of_mercado_nonempty. now exists r.
  - now apply no_nulls_filter.
Qed.

Lemma top_n_min (view : DataFrame) :
  top_n view = Nat.min 10 (n_markets view).
Proof.
  unfold top_n. rewrite ranking_mercados_length.
  destruct (10 <? n_markets view)%nat eqn:E.
  - apply Nat.ltb_lt in E. lia.
  - apply Nat.ltb_ge in E. lia.
Qed.

Lemma tail_notna (n : nat) (view : DataFrame) :
  no_nulls view ->
  forall x, In x (tail n (ranking_mercados view)) -> notna (snd x) = true.
Proof.
  intros Hnn x Hx. apply (ranking_mercados_notna view Hnn).
  unfold tail in Hx. eapply skipn_In; eassumption.
Qed.

End RankingFacts.

(* ------------------------------------------------------------------ *)
(** ** Time series and pivot *)

Lemma in_group_iff (d : Z) (m : string) (r : Row) :
  in_group (d, m) r = true <-> fecha r = Some d /\ mercado r = m.
Proof.
  unfold in_group. simpl. destruct (fecha r) as [d'|].
  - rewrite andb_true_iff, Z.eqb_eq, String.eqb_eq. split.
    + intros [-> ->]. auto.
    + intros [E ->]. inversion E. auto.
  - split; [discriminate|]. intros [E _]. discriminate.
Qed.

Lemma fecha_mercado_keys_In (df : DataFrame) (d : Z) (m : string) :
  In (d, m) (fecha_mercado_keys df)
  <-> exists r, In r df /\ in_group (d, m) r = true.
Proof.
  unfold fecha_mercado_keys. rewrite in_flat_map.
  split; intros [r [Hr H]]; exists r; (split; [exact Hr|]).
  - apply in_group_iff. destruct (fecha r) as [d'|]; [|contradiction].
    destruct H as [E|[]]. inversion E. auto.
  - apply in_group_iff in H. destruct H as [-> ->]. now left.
Qed.

Lemma group_keys_In (df : DataFrame) (d : Z) (m : string) :
  In (d, m) (group_keys df)
  <-> exists r, In r df /\ in_group (d, m) r = true.
Proof.
  unfold group_keys.
  rewrite sorted_In, (unique_In pair_eqb pair_eqb_eq).
  apply fecha_mercado_keys_In.
Qed.

Lemma group_keys_NoDup (df : DataFrame) : NoDup (group_keys df).
Proof. apply sorted_NoDup, (unique_NoDup pair_eqb pair_eqb_eq). Qed.

Lemma groupby_fecha_mercado_mean_keys (df : DataFrame) :
  map fst (groupby_fecha_mercado_mean df) = group_keys df.
Proof.
  unfold groupby_fecha_mercado_mean, group_keys. rewrite map_map. simpl.
  rewrite <- (map_id (sorted pair_leb _)) at 2.
  apply map_ext. now intros [d m].
Qed.

Lemma find_group (g : Z * string -> float64) (d : Z) (m : string)
  (ks : list (Z * string)) :
  find (fun e : Z * string * float64 =>
          (fst (fst e) =? d)%Z && String.eqb (snd (fst e)) m)
       (map (fun k => (fst k, snd k, g k)) ks)
  = if existsb (fun k => pair_eqb k (d, m)) ks
    then Some (d, m, g (d, m)) else None.
Proof.
  induction ks as [|[d' m'] ks IH]; simpl; [reflexivity|].
  unfold pair_eqb at 1. simpl.
  destruct ((d' =? d)%Z && String.eqb m' m) eqn:E; simpl; [|exact IH].
  apply andb_prop in E. destruct E as [Ed Em].
  apply Z.eqb_eq in Ed. apply String.eqb_eq in Em. now subst.
Qed.

Lemma existsb_pair_In (d : Z) (m : string) (ks : list (Z * string)) :
  existsb (fun k => pair_eqb k (d, m)) ks = true <-> In (d, m) ks.
Proof.
  rewrite existsb_exists. split.
  - intros [k [Hk E]]. apply pair_eqb_eq in E. now subst.
  - intros H. exists (d, m). split; [exact H|now apply pair_eqb_eq].
Qed.

Lemma lookup_cell_present (df : DataFrame) (d : Z) (m : string) :
  (exists r, In r df /\ in_group (d, m) r = true) ->
  lookup_cell (groupby_fecha_mercado_mean df) d m
  = mean (col_precio (filter (in_group (d, m)) df)).
Proof.
  intros H. apply group_keys_In in H. apply existsb_pair_In in H.
  unfold lookup_cell, groupby_fecha_mercado_mean. fold (group_keys df).
  rewrite (find_group (fun k => mean (col_precio (filter (in_group k) df)))).
  now rewrite H.
Qed.

Lemma lookup_cell_absent (df : DataFrame) (d : Z) (m : string) :
  ~ (exists r, In r df /\ in_group (d, m) r = true) ->
  lookup_cell (groupby_fecha_mercado_mean df) d m = NaN.
Proof.
  intros H. rewrite <- group_keys_In, <- existsb_pair_In in H.
  apply not_true_is_false in H.
  unfold lookup_cell, groupby_fecha_mercado_mean. fold (group_keys df).
  rewrite (find_group (fun k => mean (col_precio (filter (in_group k) df)))).
  now rewrite H.
Qed.

Lemma index_of_In {A : Type} (eqb : A -> A -> bool)
  (eqb_eq : forall x y, eqb x y = true <-> x = y) (x : A) (l : list A) :
  In x l -> exists i, index_of eqb x l = Some i /\ nth_error l i = Some x.
Proof.
  induction l as [|y t IH]; [contradiction|]. intros H. simpl.
  destruct (eqb x y) eqn:E.
  - exists O. apply eqb_eq in E. subst. auto.
  - destruct H as [->|H].
    + assert (E' : eqb x x = true) by now apply eqb_eq. congruence.
    + destruct (IH H) as [i [Hi Hn]]. exists (S i). rewrite Hi. auto.
Qed.

(** [pivot] never raises on the output of the group-by, and a cell of the
    frame it builds is the entry of the series for that date and market. *)
Lemma pivot_groupby (df : DataFrame) :
  exists p,
    pivot (groupby_fecha_mercado_mean df) = Some p
    /\ index p = sorted Z.leb (unique Z.eqb (map fst (group_keys df)))
    /\ columns p = sorted String.leb (unique String.eqb (map snd (group_keys df)))
    /\ forall d m, In d (index p) -> In m (columns p) ->
                   loc p d m = Some (lookup_cell (groupby_fecha_mercado_mean df) d m).
Proof.
  unfold pivot. rewrite groupby_fecha_mercado_mean_keys.
  rewrite (has_duplicates_NoDup pair_eqb pair_eqb_eq _ (group_keys_NoDup df)).
  eexists. split; [reflexivity|]. simpl.
  rewrite <- groupby_fecha_mercado_mean_keys, !map_map.
  split; [reflexivity|]. split; [reflexivity|].
  intros d m Hd Hm. unfold loc. simpl.
  destruct (index_of_In Z.eqb Z.eqb_eq d _ Hd) as [i [Hi Hni]].
  destruct (index_of_In String.eqb String.eqb_eq m _ Hm) as [j [Hj Hnj]].
  rewrite Hi, Hj.
  rewrite (map_nth_error _ _ _ Hni).
  now rewrite (map_nth_error _ _ _ Hnj).
Qed.

Lemma group_keys_fst_In (df : DataFrame) (d : Z) :
  In d (map fst (group_keys df)) <-> exists r, In r df /\ fecha r = Some d.
Proof.
  rewrite in_map_iff. split.
  - intros [[d' m] [E H]]. simpl in E. subst d'.
    apply group_keys_In in H. destruct H as [r [Hr Hg]].
    apply in_group_iff in Hg. exists r. tauto.
  - intros [r [Hr E]]. exists (d, mercado r). split; [reflexivity|].
    apply group_keys_In. exists r. split; [exact Hr|].
    now apply in_group_iff.
Qed.

Lemma group_keys_snd_In (df : DataFrame) (m : string) :
  In m (map snd (group_keys df))
  <-> exists r, In r df /\ fecha r <> None /\ mercado r = m.
Proof.
  rewrite in_map_iff. split.
  - intros [[d m'] [E H]]. simpl in E. subst m'.
    apply group_keys_In in H. destruct H as [r [Hr Hg]].
    apply in_group_iff in Hg. destruct Hg as [Hd Hm].
    exists r. repeat split; [exact Hr|congruence|exact Hm].
  - intros [r [Hr [Hd E]]]. destruct (fecha r) as [d|] eqn:Ed; [|contradiction].
    exists (d, m). split; [reflexivity|].
    apply group_keys_In. exists r. split; [exact Hr|].
    now apply in_group_iff.
Qed.

Section PivotFacts.

Context {K : SortKernel}.

Lemma in_group_sorted (view : DataFrame) (k : Z * string) :
  (exists r, In r (df_producto_sorted view) /\ in_group k r = true)
  <-> exists r, In r view /\ in_group k r = true.
Proof.
  split; intros [r [Hr H]]; exists r; (split; [|exact H]).
  - now apply df_producto_sorted_In.
  - now apply df_producto_sorted_In.
Qed.

Lemma existsb_in_group (view : DataFrame) (k : Z * string) :
  existsb (in_group k) view = true
  <-> exists r, In r view /\ in_group k r = true.
Proof. apply existsb_exists. Qed.

Lemma serie_keys (view : DataFrame) :
  NoDup (map fst (serie view))
  /\ forall d m,
      In (d, m) (map fst (serie view))
      <-> existsb (in_group (d, m)) view = true.
Proof.
  unfold serie. rewrite groupby_fecha_mercado_mean_keys. split.
  - apply group_keys_NoDup.
  - intros d m. now rewrite group_keys_In, in_group_sorted, existsb_in_group.
Qed.

Lemma serie_value (view : DataFrame) (d : Z) (m : string) (v : float64) :
  no_nulls view -> In (d, m, v) (serie view) ->
  feq v (Finite (arithmetic_mean (filter (in_group (d, m)) view))).
Proof.
  intros Hnn H. unfold serie, groupby_fecha_mercado_mean in H.
  apply in_map_iff in H. destruct H as [[d' m'] [E Hk]].
  simpl in E. inversion E; subst d' m' v. clear E.
  rewrite group_keys_In, in_group_sorted in Hk.
  rewrite <- mean_arithmetic.
  - apply mean_sorted_filter.
  - destruct Hk as [r [Hr Hg]]. intros Habs.
    assert (Hin : In r (filter (in_group (d, m)) view))
      by (apply filter_In; now split).
    rewrite Habs in Hin. contradiction.
  - now apply no_nulls_filter.
Qed.

End PivotFacts.

(** C9: the time series has one entry per (date, market) pair that occurs in
    the view, holding the arithmetic mean of the prices of the rows of that
    pair; [pivot] succeeds on it; the frame it returns has the dates of the
    view as rows and its markets as columns; the cell of a date and a market
    is that mean when the pair occurs in the view and is NaN, not a number,
    when it does not. *)
Theorem pivot_cells {K : SortKernel} (view : DataFrame) :
  view <> [] -> no_nulls view ->
  NoDup (map fst (serie view))
  /\ (forall d m,
         In (d, m) (map fst (serie view))
         <-> existsb (in_group (d, m)) view = true)
  /\ (forall d m v,
         In (d, m, v) (serie view) ->
         feq v (Finite (arithmetic_mean (filter (in_group (d, m)) view))))
  /\ exists p,
      pivot (serie view) = Some p
      /\ (forall d, In d (index p) <-> exists r, In r view /\ fecha r = Some d)
      /\ (forall m, In m (columns p) <-> exists r, In r view /\ mercado r = m)
      /\ forall d m,
          In d (index p) -> In m (columns p) ->
          (existsb (in_group (d, m)) view = true ->
           exists x,
             loc p d m = Some x
             /\ feq x (Finite (arithmetic_mean (filter (in_group (d, m)) view))))
          /\ (existsb (in_group (d, m)) view = false ->
              loc p d m = Some NaN).
Proof.
  intros _ Hnn.
  destruct (serie_keys view) as [Hnd Hkeys].
  split; [exact Hnd|]. split; [exact Hkeys|].
  split; [intros d m v; now apply serie_value|].
  unfold serie in *.
  destruct (pivot_groupby (df_producto_sorted view)) as [p [Hp [Hi [Hc Hloc]]]].
  exists p. split; [exact Hp|].
  split; [|split].
  - intros d. rewrite Hi, sorted_In, (unique_In Z.eqb Z.eqb_eq), group_keys_fst_In.
    split; intros [r [Hr E]]; exists r; (split; [|exact E]);
      now apply df_producto_sorted_In.
  - intros m.
    rewrite Hc, sorted_In, (unique_In String.eqb String.eqb_eq), group_keys_snd_In.
    split.
    + intros [r [Hr [_ E]]]. exists r. split; [|exact E].
      now apply df_producto_sorted_In.
    + intros [r [Hr E]]. exists r.
      split; [now apply df_producto_sorted_In|]. split; [|exact E].
      unfold no_nulls in Hnn. rewrite Forall_forall in Hnn. now apply Hnn.
  - intros d m Hd Hm. rewrite (Hloc d m Hd Hm). split.
    + intros Hex. apply existsb_in_group in Hex.
      pose proof Hex as Hex'. apply in_group_sorted in Hex'.
      rewrite (lookup_cell_present _ d m Hex').
      eexists. split; [reflexivity|].
      rewrite <- mean_arithmetic.
      * apply mean_sorted_filter.
      * destruct Hex as [r [Hr Hg]]. intros Habs.
        assert (Hin : In r (filter (in_group (d, m)) view))
          by (apply filter_In; now split).
        rewrite Habs in Hin. contradiction.
      * now apply no_nulls_filter.
    + intros Hex. f_equal. apply lookup_cell_absent.
      rewrite in_group_sorted, <- existsb_in_group. congruence.
Qed.

(** The scenario: 2023-02-01 has no price for market B, so that cell is NaN;
    the other three cells hold the price of their single row. *)
Lemma pivot_cells_rice :
  rice_view <> [] /\ no_nulls rice_view
  /\ exists p,
      pivot (serie (K := insertion_kernel) rice_view) = Some p
      /\ index p = [19358%Z; 19389%Z]
      /\ columns p = ["A"; "B"]
      /\ loc p 19389 "B" = Some NaN
      /\ exists x, loc p 19358 "B" = Some x /\ feq x (Finite 2000).
Proof.
  destruct rice_view_no_nulls as [Hne Hnn].
  split; [exact Hne|]. split; [exact Hnn|].
  destruct (pivot_cells (K := insertion_kernel) rice_view Hne Hnn)
    as (_ & _ & _ & p & Hp & _ & _ & Hcell).
  exists p. split; [exact Hp|].
  vm_compute in Hp. inversion Hp; subst p. clear Hp.
  split; [reflexivity|]. split; [reflexivity|].
  split.
  - apply (proj2 (Hcell 19389%Z "B" (or_intror (or_introl eq_refl))
                    (or_intror (or_introl eq_refl)))).
    reflexivity.
  - destruct (proj1 (Hcell 19358%Z "B" (or_introl eq_refl)
                       (or_intror (or_introl eq_refl))) eq_refl)
      as [x [Hx Hv]].
    exists x. split; [exact Hx|].
    eapply feq_trans; [exact Hv|]. vm_compute. reflexivity.
Defined.

(* ------------------------------------------------------------------ *)
(** ** The page *)

(** On a loaded, non-empty dataset and a non-empty view [main] reaches the
    end: no exception escapes and the page shows the values computed from
    the view. *)
Lemma main_shows_page {K : SortKernel} (df : DataFrame) (path : option string)
  (sel : Selection) :
  df <> [] -> df_producto df sel <> [] ->
  exists page,
    main (Some df, path) sel = Page page
    /\ kpi_variacion_pct page = variacion_pct (df_producto df sel)
    /\ pivot (serie (df_producto df sel)) = Some (chart_pivot page)
    /\ chart_mas_caros page = mas_caros (df_producto df sel)
    /\ chart_mas_baratos page = mas_baratos (df_producto df sel)
    /\ table_ranking page = ranking_mercados (df_producto df sel).
Proof.
  intros Hdf Hview. unfold main. simpl fst.
  destruct df as [|r0 df0] eqn:Edf; [contradiction|]. simpl is_empty.
  rewrite <- Edf in *.
  destruct (df_producto df sel) as [|r view] eqn:E; [contradiction|].
  simpl is_empty. unfold serie.
  destruct (pivot_groupby (df_producto_sorted (r :: view))) as [p [Hp _]].
  rewrite Hp. eexists. split; [reflexivity|]. simpl. auto.
Qed.

(** C6: on a non-empty view without nulls the ranking lists every market of
    the view once, with the arithmetic mean of its prices, in descending
    order of that mean; K is the smaller of 10 and the number of distinct
    markets; the first chart is the first K entries of the ranking and the
    second chart is its last K entries in ascending order; both charts are
    made of entries of the ranking and have K entries; with ten markets or
    fewer both charts hold the whole ranking, and the page is shown. *)
Theorem ranking_top_bottom {K : SortKernel} (view : DataFrame) :
  view <> [] -> no_nulls view ->
  descending (ranking_mercados view)
  /\ NoDup (map fst (ranking_mercados view))
  /\ (forall m, In m (map fst (ranking_mercados view))
                <-> exists r, In r view /\ mercado r = m)
  /\ (forall m v, In (m, v) (ranking_mercados view) ->
                  feq v (Finite (arithmetic_mean (of_mercado m view))))
  /\ List.length (ranking_mercados view) = n_markets view
  /\ top_n view = Nat.min 10 (n_markets view)
  /\ mas_caros view = firstn (top_n view) (ranking_mercados view)
  /\ Permutation (mas_baratos view)
       (skipn (n_markets view - top_n view) (ranking_mercados view))
  /\ ascending (mas_baratos view)
  /\ incl (mas_caros view) (ranking_mercados view)
  /\ incl (mas_baratos view) (ranking_mercados view)
  /\ List.length (mas_caros view) = top_n view
  /\ List.length (mas_baratos view) = top_n view
  /\ ((n_markets view <= 10)%nat ->
      mas_caros view = ranking_mercados view
      /\ Permutation (mas_baratos view) (ranking_mercados view))
  /\ (forall df path sel,
         df <> [] -> df_producto df sel = view ->
         exists page,
           main (Some df, path) sel = Page page
           /\ chart_mas_caros page = mas_caros view
           /\ chart_mas_baratos page = mas_baratos view
           /\ table_ranking page = ranking_mercados view).
Proof.
  intros Hne Hnn.
  pose proof (ranking_mercados_length view) as Hlen.
  pose proof (top_n_min view) as Hk.
  assert (Hperm : Permutation (mas_baratos view)
                    (skipn (n_markets view - top_n view) (ranking_mercados view))).
  { unfold mas_baratos. rewrite <- Hlen. apply sort_values_perm. }
  split.
  { apply sort_values_descending, groupby_mercado_mean_notna.
    eapply no_nulls_perm; [apply Permutation_sym, df_producto_sorted_perm|exact Hnn]. }
  split; [apply ranking_mercados_keys|].
  split; [apply ranking_mercados_keys|].
  split; [intros m v; now apply ranking_mercados_value|].
  split; [exact Hlen|]. split; [exact Hk|].
  split; [reflexivity|]. split; [exact Hperm|].
  split; [apply sort_values_ascending; now apply tail_notna|].
  split; [intros x Hx; eapply firstn_In; exact Hx|].
  split.
  { intros x Hx. apply (Permutation_in _ Hperm) in Hx.
    eapply skipn_In; exact Hx. }
  split.
  { unfold mas_caros, head. rewrite length_firstn, Hlen. lia. }
  split.
  { rewrite (Permutation_length Hperm), length_skipn, Hlen. lia. }
  split.
  { intros Hsmall.
    assert (Ek : top_n view = List.length (ranking_mercados view)) by lia.
    split.
    - unfold mas_caros, head. rewrite Ek. apply firstn_all.
    - replace (n_markets view - top_n view)%nat with 0%nat in Hperm by lia.
      exact Hperm. }
  intros df path sel Hdf Hv.
  assert (Hview : df_producto df sel <> []) by now rewrite Hv.
  destruct (main_shows_page df path sel Hdf Hview)
    as (page & Hm & _ & _ & H1 & H2 & H3).
  exists page. rewrite Hv in *. auto.
Qed.

(** The scenario of the specification: B at 2000, then A at 1250. *)
Lemma ranking_rice_scenario :
  rice_view <> [] /\ no_nulls rice_view
  /\ map fst (ranking_mercados (K := insertion_kernel) rice_view) = ["B"; "A"]
  /\ (forall v, In ("B", v) (ranking_mercados (K := insertion_kernel) rice_view) ->
                feq v (Finite 2000))
  /\ (forall v, In ("A", v) (ranking_mercados (K := insertion_kernel) rice_view) ->
                feq v (Finite 1250))
  /\ top_n (K := insertion_kernel) rice_view = 2%nat
  /\ map fst (mas_caros (K := insertion_kernel) rice_view) = ["B"; "A"]
  /\ map fst (mas_baratos (K := insertion_kernel) rice_view) = ["A"; "B"].
Proof.
  destruct rice_view_no_nulls as [Hne Hnn].
  split; [exact Hne|]. split; [exact Hnn|].
  destruct (ranking_top_bottom (K := insertion_kernel) rice_view Hne Hnn)
    as (_ & _ & _ & Hval & _).
  split; [reflexivity|].
  split.
  { intros v Hv. eapply feq_trans; [exact (Hval _ _ Hv)|]. vm_compute. reflexivity. }
  split.
  { intros v Hv. eapply feq_trans; [exact (Hval _ _ Hv)|]. vm_compute. reflexivity. }
  repeat split.
Defined.

(* ================================================================== *)
(** * Further properties of the loader *)

Module PyStrLaws.
Import PyStr.

Lemma upper_char_idem (c : ascii) : upper_char (upper_char c) = upper_char c.
Proof. PyStrFacts.each_ascii c. Qed.

Lemma lower_char_not_upper (c : ascii) : isupper (lower_char c) = false.
Proof. PyStrFacts.each_ascii c. Qed.

Lemma upper_idem (s : string) : upper (upper s) = upper s.
Proof.
  induction s as [|c s IH]; simpl; [reflexivity|].
  now rewrite upper_char_idem, IH.
Qed.

Lemma upper_empty (s : string) : upper s = EmptyString -> s = EmptyString.
Proof. destruct s; [reflexivity|discriminate]. Qed.

Lemma lstrip_upper (s : string) : lstrip (upper s) = upper (lstrip s).
Proof.
  induction s as [|c s IH]; simpl; [reflexivity|].
  rewrite PyStrFacts.upper_char_isspace.
  destruct (isspace c); [exact IH|reflexivity].
Qed.

Lemma rstrip_upper (s : string) : rstrip (upper s) = upper (rstrip s).
Proof.
  induction s as [|c s IH]; simpl; [reflexivity|].
  rewrite IH, PyStrFacts.upper_char_isspace.
  destruct (rstrip s) as [|d t]; simpl.
  - destruct (isspace c); reflexivity.
  - reflexivity.
Qed.

Lemma strip_upper (s : string) : strip (upper s) = upper (strip s).
Proof. unfold strip. now rewrite lstrip_upper, rstrip_upper. Qed.

Lemma rstrip_idem (s : string) : rstrip (rstrip s) = rstrip s.
Proof.
  induction s as [|c s IH]; simpl; [reflexivity|].
  destruct (rstrip s) as [|d t] eqn:E.
  - destruct (isspace c) eqn:Ec; simpl; [reflexivity|now rewrite Ec].
  - simpl in *. rewrite IH. reflexivity.
Qed.

Lemma lstrip_fixed (s : string) :
  is_space_opt (first_char s) = false -> lstrip s = s.
Proof. destruct s as [|c s]; simpl; [reflexivity|]. now intros ->. Qed.

Lemma strip_idem (s : string) : strip (strip s) = strip s.
Proof.
  unfold strip.
  rewrite (lstrip_fixed (rstrip (lstrip s))).
  - apply rstrip_idem.
  - apply PyStrFacts.first_char_rstrip, PyStrFacts.first_char_lstrip.
Qed.

Lemma contains_replace_other (c old : ascii) (s : string) :
  Ascii.eqb c old = false ->
  contains c (replace old "" s) = contains c s.
Proof.
  intros Hne. induction s as [|d s IH]; simpl; [reflexivity|].
  destruct (Ascii.eqb d old) eqn:E; simpl.
  - rewrite IH. apply Ascii.eqb_eq in E. subst d.
    rewrite Ascii.eqb_sym, Hne. reflexivity.
  - now rewrite IH.
Qed.

Lemma replace_by_char_removes (old new : ascii) (s : string) :
  Ascii.eqb new old = false ->
  contains old (replace old (String new EmptyString) s) = false.
Proof.
  intros Hne. induction s as [|d s IH]; simpl; [reflexivity|].
  destruct (Ascii.eqb d old) eqn:E; simpl.
  - now rewrite Hne, IH.
  - now rewrite E, IH.
Qed.

Lemma forallb_append (p : ascii -> bool) (s t : string) :
  forallb p (s ++ t) = forallb p s && forallb p t.
Proof.
  induction s as [|c s IH]; simpl; [reflexivity|].
  now rewrite IH, andb_assoc.
Qed.

Lemma forallb_replace (p : ascii -> bool) (old : ascii) (new s : string) :
  forallb p new = true -> forallb p s = true ->
  forallb p (replace old new s) = true.
Proof.
  intros Hnew. induction s as [|d s IH]; simpl; [reflexivity|].
  intros H. apply andb_prop in H. destruct H as [Hd Hs].
  destruct (Ascii.eqb d old).
  - rewrite forallb_append, Hnew. now apply IH.
  - simpl. rewrite Hd. now apply IH.
Qed.

Lemma lower_no_upper (s : string) :
  forallb (fun c => negb (isupper c)) (lower s) = true.
Proof.
  induction s as [|c s IH]; simpl; [reflexivity|].
  now rewrite lower_char_not_upper, IH.
Qed.

End PyStrLaws.

(** X1: the loop over [possible_paths] stops at the first path that exists:
    a path is the chosen one exactly when it exists and every path before it
    in the list does not; no path is chosen exactly when none exists.  So
    [load_data] reads [data/processed/sipsa_master.csv] whenever it exists,
    whatever lies under [/content]. *)
Theorem first_existing_spec (read_csv : string -> option (list RawRow))
  (paths : list string) :
  (forall rows path,
      first_existing read_csv paths = Some (rows, path)
      <-> exists before after,
          paths = before ++ path :: after
          /\ (forall p, In p before -> read_csv p = None)
          /\ read_csv path = Some rows)
  /\ (first_existing read_csv paths = None
      <-> forall p, In p paths -> read_csv p = None)
  /\ (forall parse_float rows,
         read_csv "data/processed/sipsa_master.csv" = Some rows ->
         load_data parse_float read_csv
         = (Some (normalize_frame parse_float rows),
            Some "data/processed/sipsa_master.csv")).
Proof.
  split; [|split].
  - induction paths as [|p paths IH]; intros rows path; simpl.
    + split; [discriminate|]. intros (before & after & E & _).
      destruct before; discriminate.
    + destruct (read_csv p) as [rows0|] eqn:Ep.
      * split.
        -- intros H. inversion H; subst. exists [], paths. simpl.
           split; [reflexivity|]. split; [intros q []|exact Ep].
        -- intros (before & after & E & Hb & Hr).
           destruct before as [|b before]; simpl in E; inversion E; subst.
           ++ congruence.
           ++ rewrite (Hb b (or_introl eq_refl)) in Ep. discriminate.
      * rewrite IH. split.
        -- intros (before & after & E & Hb & Hr).
           exists (p :: before), after. subst. simpl. repeat split; auto.
           intros q [<-|Hq]; auto.
        -- intros (before & after & E & Hb & Hr).
           destruct before as [|b before]; simpl in E; inversion E; subst.
           ++ congruence.
           ++ exists before, after. repeat split; auto.
              intros q Hq. apply Hb. now right.
  - induction paths as [|p paths IH]; simpl.
    + split; [intros _ p []|reflexivity].
    + destruct (read_csv p) as [rows0|] eqn:Ep.
      * split; [discriminate|]. intros H.
        rewrite (H p (or_introl eq_refl)) in Ep. discriminate.
      * rewrite IH. split.
        -- intros H q [<-|Hq]; auto.
        -- intros H q Hq. apply H. now right.
  - intros parse_float rows H. unfold load_data, possible_paths. simpl.
    now rewrite H.
Qed.

(** X2: a normalised column name holds no asterisk, no blank and no capital
    letter, whatever the header was. *)
Theorem normalize_column_clean (name : string) :
  PyStr.contains "*" (normalize_column name) = false
  /\ PyStr.contains " " (normalize_column name) = false
  /\ PyStr.forallb (fun c => negb (PyStr.isupper c)) (normalize_column name) = true.
Proof.
  unfold normalize_column. split; [|split].
  - apply PyStrFacts.replace_removes.
  - rewrite PyStrLaws.contains_replace_other by reflexivity.
    apply PyStrLaws.replace_by_char_removes. reflexivity.
  - apply PyStrLaws.forallb_replace; [reflexivity|].
    apply PyStrLaws.forallb_replace; [reflexivity|].
    apply PyStrLaws.lower_no_upper.
Qed.

(** X3: normalising a text value that is already normalised changes
    nothing. *)
Theorem normalize_text_idempotent (c : option string) :
  normalize_text (Some (normalize_text c)) = normalize_text c.
Proof.
  unfold normalize_text. simpl astype_str.
  rewrite PyStrLaws.strip_upper, PyStrLaws.strip_idem.
  apply PyStrLaws.upper_idem.
Qed.

Example normalize_column_irregular :
  normalize_column irregular_header = "precio_promedio_por_kilogramo".
Proof. reflexivity. Qed.

(* ================================================================== *)
(** * Further properties of the filters and of the page *)

Lemma filter_filter_and {A : Type} (p q : A -> bool) (l : list A) :
  filter p (filter q l) = filter (fun x => q x && p x) l.
Proof.
  induction l as [|x t IH]; simpl; [reflexivity|].
  destruct (q x); simpl; [|exact IH].
  destruct (p x); now rewrite IH.
Qed.

Lemma df_producto_selected (df : DataFrame) (sel : Selection) :
  df_producto df sel = filter (selected sel) df.
Proof.
  unfold df_producto. rewrite df_producto_periodo_eq.
  destruct (mercados_sel sel) as [|m ms] eqn:E.
  - apply filter_ext. intros r. unfold selected. rewrite E. simpl.
    now rewrite andb_true_r.
  - rewrite filter_filter_and. apply filter_ext. intros r.
    unfold selected. rewrite E. reflexivity.
Qed.

Lemma mask_fecha_iff (lo hi : Z) (r : Row) :
  mask_fecha lo hi r = true
  <-> exists d, fecha r = Some d /\ (lo <= d <= hi)%Z.
Proof.
  unfold mask_fecha. destruct (fecha r) as [d|].
  - rewrite andb_true_iff, !Z.leb_le. split.
    + intros H. exists d. auto.
    + intros [d' [E H]]. inversion E. subst. exact H.
  - split; [discriminate|]. intros [d [E _]]. discriminate.
Qed.

Lemma eq_producto_iff (p : option string) (r : Row) :
  eq_producto p r = true <-> p = Some (producto r).
Proof.
  unfold eq_producto. destruct p as [p|].
  - rewrite String.eqb_eq. split; [intros ->; reflexivity|].
    intros E. now inversion E.
  - split; discriminate.
Qed.

Lemma selected_iff (sel : Selection) (r : Row) :
  selected sel r = true
  <-> (exists d, fecha r = Some d /\ (start_date sel <= d <= end_date sel)%Z)
      /\ producto_sel sel = Some (producto r)
      /\ (mercados_sel sel = [] \/ In (mercado r) (mercados_sel sel)).
Proof.
  unfold selected.
  rewrite !andb_true_iff, orb_true_iff, mask_fecha_iff, eq_producto_iff, isin_In.
  assert (H : is_empty (mercados_sel sel) = true <-> mercados_sel sel = []).
  { destruct (mercados_sel sel); simpl; split; try reflexivity; discriminate. }
  rewrite H. tauto.
Qed.

(** X5: the three filters of the sidebar amount to one pass over the dataset
    that keeps, in the order of the dataset, the rows whose date lies between
    the two ends of the slider, both included, whose product is the selected
    one and, when any market is selected, whose market is among them. *)
Theorem df_producto_spec (df : DataFrame) (sel : Selection) :
  df_producto df sel = filter (selected sel) df
  /\ forall r,
      In r (df_producto df sel)
      <-> In r df
          /\ (exists d, fecha r = Some d
                        /\ (start_date sel <= d <= end_date sel)%Z)
          /\ producto_sel sel = Some (producto r)
          /\ (mercados_sel sel = [] \/ In (mercado r) (mercados_sel sel)).
Proof.
  split; [apply df_producto_selected|].
  intros r. rewrite df_producto_selected, filter_In, selected_iff. tauto.
Qed.

Lemma productos_In (df : DataFrame) (sel : Selection) (p : string) :
  In p (productos df sel) <-> exists r, In r (df_periodo df sel) /\ producto r = p.
Proof.
  unfold productos.
  rewrite sorted_In, (unique_In String.eqb String.eqb_eq), in_map_iff.
  split; intros [r [H1 H2]]; exists r; auto.
Qed.

Lemma productos_sorted (df : DataFrame) (sel : Selection) :
  StronglySorted (fun a b => String.leb a b = true) (productos df sel).
Proof.
  apply sorted_sorted; [exact string_leb_total|exact string_leb_trans].
Qed.

Lemma string_leb_refl (a : string) : String.leb a a = true.
Proof. apply string_leb_cases. now left. Qed.

(** X6: the options of the product select box are the products of the rows
    inside the date range, each once, in strictly ascending order; the box
    opens on the smallest of them, and on nothing exactly when no row lies
    inside the range. *)
Theorem productos_spec (df : DataFrame) (sel : Selection) :
  StronglySorted (fun a b => String.ltb a b = true) (productos df sel)
  /\ (forall p, In p (productos df sel)
                <-> exists r, In r (df_periodo df sel) /\ producto r = p)
  /\ (producto_default df sel = None <-> df_periodo df sel = [])
  /\ (forall p, producto_default df sel = Some p ->
                In p (productos df sel)
                /\ forall q, In q (productos df sel) -> String.leb p q = true).
Proof.
  split.
  { apply sorted_strict; [|apply productos_sorted].
    apply sorted_NoDup, (unique_NoDup String.eqb String.eqb_eq). }
  split; [apply productos_In|].
  unfold producto_default. split.
  - destruct (productos df sel) as [|p ps] eqn:E; simpl.
    + split; [intros _|reflexivity].
      destruct (df_periodo df sel) as [|r rest] eqn:Ed; [reflexivity|].
      assert (H : In (producto r) (productos df sel)).
      { apply productos_In. exists r. rewrite Ed. simpl. auto. }
      rewrite E in H. contradiction.
    + split; [discriminate|]. intros Hd.
      assert (H : In p (productos df sel)) by (rewrite E; now left).
      apply productos_In in H. destruct H as [r [Hr _]].
      rewrite Hd in Hr. contradiction.
  - intros p Hp. pose proof (productos_sorted df sel) as Hs.
    destruct (productos df sel) as [|p0 ps]; [discriminate|].
    simpl in Hp. inversion Hp; subst p0. split; [now left|].
    intros q [<-|Hq]; [apply string_leb_refl|].
    inversion Hs as [|? ? _ Hall]; subst.
    rewrite Forall_forall in Hall. now apply Hall.
Qed.

Lemma min_max_bounds (df : DataFrame) (lo hi : Z) :
  min_date df = Some lo -> max_date df = Some hi ->
  forall r d, In r df -> fecha r = Some d -> (lo <= d <= hi)%Z.
Proof.
  unfold min_date, max_date. intros Hlo Hhi r d Hr Hd.
  pose proof (series_min_spec (map fecha df)) as Hmin.
  pose proof (series_max_spec (map fecha df)) as Hmax.
  rewrite Hlo in Hmin. rewrite Hhi in Hmax.
  assert (Hin : In (Some d) (map fecha df)) by (rewrite <- Hd; now apply in_map).
  split; [now apply Hmin|now apply Hmax].
Qed.

(** X7: with the slider left on its default, from the earliest to the latest
    date of a dataset without nulls, the date filter removes no row. *)
Theorem default_dates_keep_all (df : DataFrame) (sel : Selection) :
  no_nulls df ->
  min_date df = Some (start_date sel) ->
  max_date df = Some (end_date sel) ->
  df_periodo df sel = df.
Proof.
  intros Hnn Hlo Hhi. unfold df_periodo. apply filter_all. intros r Hr.
  unfold no_nulls in Hnn. rewrite Forall_forall in Hnn.
  destruct (Hnn r Hr) as [Hd _].
  apply mask_fecha_iff. destruct (fecha r) as [d|] eqn:E; [|contradiction].
  exists d. split; [reflexivity|].
  eapply min_max_bounds; eauto.
Qed.

Lemma default_dates_keep_all_witness :
  no_nulls rice_dataset
  /\ min_date rice_dataset = Some (start_date rice_query)
  /\ max_date rice_dataset = Some (end_date rice_query)
  /\ df_periodo rice_dataset rice_query = rice_dataset.
Proof.
  assert (Hnn : no_nulls rice_dataset) by (repeat constructor; discriminate).
  split; [exact Hnn|]. split; [reflexivity|]. split; [reflexivity|].
  exact (default_dates_keep_all rice_dataset rice_query Hnn eq_refl eq_refl).
Defined.

Lemma main_warns {K : SortKernel} (df : DataFrame) (path : option string)
  (sel : Selection) :
  df <> [] -> df_producto df sel = [] ->
  main (Some df, path) sel = StopWarning.
Proof.
  intros Hne Hv. unfold main. simpl fst.
  destruct df; [contradiction|]. simpl is_empty. cbv iota.
  now rewrite Hv.
Qed.

(** X9: on a dataset with rows, a selection that can match nothing ends in
    the warning, not in an exception: no product picked, a product that no
    row of the dataset has, or a slider whose end precedes its start. *)
Theorem nothing_selected_warns {K : SortKernel} (df : DataFrame)
  (path : option string) (sel : Selection) :
  df <> [] ->
  producto_sel sel = None
  \/ (exists p, producto_sel sel = Some p
                /\ forall r, In r df -> producto r <> p)
  \/ (end_date sel < start_date sel)%Z ->
  df_producto df sel = [] /\ main (Some df, path) sel = StopWarning.
Proof.
  intros Hne Hcase.
  assert (Hv : df_producto df sel = []).
  { destruct (df_producto df sel) as [|r view] eqn:E; [reflexivity|].
    assert (Hr : In r (df_producto df sel)) by (rewrite E; now left).
    rewrite df_producto_selected, filter_In, selected_iff in Hr.
    destruct Hr as (Hin & [d [Hd Hrange]] & Hp & _). exfalso.
    destruct Hcase as [Hnone|[[p [Hp' Habs]]|Hinv]].
    - congruence.
    - rewrite Hp' in Hp. inversion Hp. subst p. now apply (Habs r).
    - lia. }
  split; [exact Hv|]. now apply main_warns.
Qed.

Lemma nothing_selected_warns_witness :
  rice_dataset <> []
  /\ main (K := insertion_kernel) (Some rice_dataset, None)
       {| start_date := 19358; end_date := 19389;
          producto_sel := Some "WHEAT"; mercados_sel := [] |}
     = StopWarning.
Proof.
  assert (Hne : rice_dataset <> []) by discriminate.
  split; [exact Hne|].
  apply (nothing_selected_warns (K := insertion_kernel) rice_dataset None _ Hne).
  right. left. exists "WHEAT". split; [reflexivity|].
  intros r [<-|[<-|[<-|[]]]]; discriminate.
Defined.







(* ================================================================== *)
(** * Further properties of the indicators *)

(** X12: when the initial price is strictly positive the variation is
    defined and its sign is that of the change: positive exactly when the
    final price is above the initial one, zero exactly when they are equal,
    negative exactly when it is below; and it is never under -100 when the
    final price is not negative. *)
Theorem variacion_pct_sign {K : SortKernel} (view : DataFrame) (p q : Q) :
  precio_inicial view = Finite q -> precio_final view = Finite p -> 0 < q ->
  exists v,
    variacion_pct view = Some (Finite v)
    /\ (0 < v <-> q < p)
    /\ (v == 0 <-> p == q)
    /\ (v < 0 <-> p < q)
    /\ (0 <= p -> -(100) <= v).
Proof.
  intros Hi Hf Hq. exists ((p / q - 1) * 100).
  split; [now apply variacion_pct_value|].
  assert (Hx : p == (p / q) * q) by (field; lra).
  set (x := p / q) in *.
  assert (Hsign : p - q == (x - 1) * q) by (rewrite Hx at 1; ring).
  repeat split; intros H; try nra.
Qed.

Lemma variacion_pct_sign_witness :
  precio_inicial (K := insertion_kernel) rice_view = Finite (3000 # 2)
  /\ precio_final (K := insertion_kernel) rice_view = Finite 1500
  /\ 0 < 3000 # 2
  /\ exists v,
      variacion_pct (K := insertion_kernel) rice_view = Some (Finite v)
      /\ v == 0.
Proof.
  assert (Hpos : 0 < 3000 # 2) by reflexivity.
  split; [reflexivity|]. split; [reflexivity|]. split; [exact Hpos|].
  destruct (variacion_pct_sign (K := insertion_kernel) rice_view
              1500 (3000 # 2) eq_refl eq_refl Hpos)
    as (v & Hv & _ & Hz & _).
  exists v. split; [exact Hv|]. apply Hz. reflexivity.
Defined.

(* ================================================================== *)
(** * Further properties of the ranking *)

Lemma NoDup_app_disjoint {A : Type} (l1 l2 : list A) (x : A) :
  NoDup (l1 ++ l2) -> In x l1 -> In x l2 -> False.
Proof.
  induction l1 as [|a l1 IH]; simpl; [intros _ []|].
  intros Hnd [<-|H1] H2; inversion Hnd as [|? ? Hnin Hnd']; subst.
  - apply Hnin. apply in_or_app. now right.
  - now apply IH.
Qed.

Lemma firstn_In_le {A : Type} (i j : nat) (l : list A) (x : A) :
  (i <= j)%nat -> In x (firstn i l) -> In x (firstn j l).
Proof.
  intros Hle H. replace i with (Nat.min i j) in H by lia.
  rewrite <- firstn_firstn in H. eapply firstn_In; exact H.
Qed.

Lemma firstn_skipn_disjoint {A : Type} (i j : nat) (l : list A) (x : A) :
  NoDup l -> (i <= j)%nat -> In x (firstn i l) -> In x (skipn j l) -> False.
Proof.
  intros Hnd Hle H1 H2. rewrite <- (firstn_skipn j l) in Hnd.
  eapply NoDup_app_disjoint; [exact Hnd| |exact H2].
  eapply firstn_In_le; eassumption.
Qed.

Lemma firstn_skipn_overlap {A : Type} (i j : nat) (l : list A) :
  (j < i)%nat -> (j < List.length l)%nat ->
  exists x, In x (firstn i l) /\ In x (skipn j l).
Proof.
  intros Hji Hj.
  destruct (nth_error l j) as [x|] eqn:E.
  2: { apply nth_error_None in E. lia. }
  exists x. split.
  - apply (nth_error_In _ j). rewrite nth_error_firstn.
    apply Nat.ltb_lt in Hji. now rewrite Hji.
  - apply (nth_error_In _ 0). rewrite nth_error_skipn.
    now rewrite Nat.add_0_r.
Qed.

Lemma n_markets_pos (view : DataFrame) : view <> [] -> (0 < n_markets view)%nat.
Proof.
  destruct view as [|r view]; [contradiction|]. intros _.
  unfold n_markets. simpl. lia.
Qed.

Section ChartFacts.

Context {K : SortKernel}.

Lemma mas_caros_keys (view : DataFrame) :
  map fst (mas_caros view)
  = firstn (top_n view) (map fst (ranking_mercados view)).
Proof. unfold mas_caros, head. symmetry. apply firstn_map. Qed.

Lemma mas_baratos_keys (view : DataFrame) (m : string) :
  In m (map fst (mas_baratos view))
  <-> In m (skipn (n_markets view - top_n view) (map fst (ranking_mercados view))).
Proof.
  assert (Hp : Permutation (map fst (mas_baratos view))
                 (skipn (n_markets view - top_n view)
                    (map fst (ranking_mercados view)))).
  { rewrite skipn_map. apply Permutation_map.
    unfold mas_baratos, tail. rewrite ranking_mercados_length.
    apply sort_values_perm. }
  split; apply Permutation_in; [exact Hp|apply Permutation_sym, Hp].
Qed.

End ChartFacts.

(** X14: the first chart holds the most expensive markets and the second the
    cheapest: on a view without nulls every market of the first chart has a
    mean price at least that of every market the chart leaves out, and every
    market of the second chart a mean price at most that of every market it
    leaves out. *)
Theorem charts_hold_extremes {K : SortKernel} (view : DataFrame) :
  no_nulls view ->
  (forall x y,
      In x (mas_caros view) ->
      In y (skipn (top_n view) (ranking_mercados view)) ->
      fval (snd y) <= fval (snd x))
  /\ (forall x y,
         In x (mas_baratos view) ->
         In y (firstn (n_markets view - top_n view) (ranking_mercados view)) ->
         fval (snd x) <= fval (snd y)).
Proof.
  intros Hnn.
  assert (Hd : descending (ranking_mercados view)).
  { apply sort_values_descending, groupby_mercado_mean_notna.
    eapply no_nulls_perm; [apply Permutation_sym, df_producto_sorted_perm|exact Hnn]. }
  split.
  - intros x y Hx Hy.
    exact (StronglySorted_firstn_skipn _ (top_n view) _ Hd x y Hx Hy).
  - intros x y Hx Hy.
    assert (Hx' : In x (skipn (n_markets view - top_n view) (ranking_mercados view))).
    { unfold mas_baratos, tail in Hx. rewrite ranking_mercados_length in Hx.
      eapply Permutation_in; [apply sort_values_perm|exact Hx]. }
    exact (StronglySorted_firstn_skipn _ _ _ Hd y x Hy Hx').
Qed.

Lemma eleven_markets_no_nulls : no_nulls eleven_markets.
Proof. repeat constructor; discriminate. Defined.

(** Eleven markets: the first chart leaves out A, the cheapest, and the
    second leaves out K, the most expensive. *)
Lemma charts_hold_extremes_witness :
  no_nulls eleven_markets
  /\ top_n (K := insertion_kernel) eleven_markets = 10%nat
  /\ skipn (top_n (K := insertion_kernel) eleven_markets)
       (ranking_mercados (K := insertion_kernel) eleven_markets)
     = [("A", Finite 100)]
  /\ firstn (n_markets eleven_markets - top_n (K := insertion_kernel) eleven_markets)
       (ranking_mercados (K := insertion_kernel) eleven_markets)
     = [("K", Finite 1100)]
  /\ (forall x, In x (mas_caros (K := insertion_kernel) eleven_markets) ->
                100 <= fval (snd x))
  /\ (forall x, In x (mas_baratos (K := insertion_kernel) eleven_markets) ->
                fval (snd x) <= 1100).
Proof.
  pose proof eleven_markets_no_nulls as Hnn.
  destruct (charts_hold_extremes (K := insertion_kernel) eleven_markets Hnn)
    as [Htop Hbottom].
  split; [exact Hnn|]. split; [reflexivity|].
  split; [reflexivity|]. split; [reflexivity|].
  split.
  - intros x Hx. apply (Htop x ("A", Finite 100) Hx). now left.
  - intros x Hx. apply (Hbottom x ("K", Finite 1100) Hx). now left.
Defined.

(** X15: the two charts share no market exactly when the view has at least
    twenty markets: with twenty or more no market is in both, and with fewer
    (on a non-empty view) some market is in both. *)
Theorem charts_overlap {K : SortKernel} (view : DataFrame) :
  view <> [] ->
  ((20 <= n_markets view)%nat ->
   forall m, In m (map fst (mas_caros view)) ->
             ~ In m (map fst (mas_baratos view)))
  /\ ((n_markets view < 20)%nat ->
      exists m, In m (map fst (mas_caros view))
                /\ In m (map fst (mas_baratos view))).
Proof.
  intros Hne.
  pose proof (n_markets_pos view Hne) as Hpos.
  pose proof (top_n_min view) as Hk.
  destruct (ranking_mercados_keys view) as [Hnd _].
  pose proof (ranking_mercados_length view) as Hlen.
  split.
  - intros Hbig m H1 H2.
    rewrite mas_caros_keys in H1. apply mas_baratos_keys in H2.
    eapply (firstn_skipn_disjoint (top_n view) (n_markets view - top_n view));
      [exact Hnd| |exact H1|exact H2].
    lia.
  - intros Hsmall.
    destruct (firstn_skipn_overlap (top_n view) (n_markets view - top_n view)
                (map fst (ranking_mercados view))) as [m [H1 H2]].
    + lia.
    + rewrite length_map, Hlen. lia.
    + exists m. split.
      * now rewrite mas_caros_keys.
      * now apply mas_baratos_keys.
Qed.

Lemma charts_overlap_witness :
  rice_view <> []
  /\ exists m, In m (map fst (mas_caros (K := insertion_kernel) rice_view))
               /\ In m (map fst (mas_baratos (K := insertion_kernel) rice_view)).
Proof.
  assert (Hne : rice_view <> []) by discriminate.
  split; [exact Hne|].
  apply (proj2 (charts_overlap (K := insertion_kernel) rice_view Hne)).
  vm_compute. lia.
Defined.

(* ================================================================== *)
(** * Further properties of the time series and of the closing table *)

Lemma sorted_strict_Z (l : list Z) :
  NoDup l ->
  StronglySorted (fun a b => (a <=? b)%Z = true) l ->
  StronglySorted Z.lt l.
Proof.
  induction 2 as [|x t Hs IH Hx]; constructor.
  - apply IH. now inversion H.
  - inversion H as [|? ? Hnin Hnd]; subst.
    rewrite Forall_forall in *. intros y Hy.
    specialize (Hx y Hy). apply Z.leb_le in Hx.
    assert (x <> y) by (intros ->; contradiction). lia.
Qed.

Lemma pivot_shape (s : list (Z * string * float64)) (p : PivotTable) :
  pivot s = Some p ->
  List.length (values p) = List.length (index p)
  /\ Forall (fun row => List.length row = List.length (columns p)) (values p)
  /\ StronglySorted Z.lt (index p)
  /\ StronglySorted (fun a b => String.ltb a b = true) (columns p).
Proof.
  unfold pivot. destruct (has_duplicates pair_eqb (map fst s)); [discriminate|].
  intros H. inversion H; subst p; clear H. simpl.
  split; [apply length_map|].
  split.
  { apply Forall_forall. intros row Hrow. apply in_map_iff in Hrow.
    destruct Hrow as [d [<- _]]. apply length_map. }
  split.
  - apply sorted_strict_Z.
    + apply sorted_NoDup, (unique_NoDup Z.eqb Z.eqb_eq).
    + apply sorted_sorted; [exact Z_leb_total|exact Z_leb_trans].
  - apply sorted_strict.
    + apply sorted_NoDup, (unique_NoDup String.eqb String.eqb_eq).
    + apply sorted_sorted; [exact string_leb_total|exact string_leb_trans].
Qed.

(** X16: [pivot] succeeds on the time series of every view, and the frame it
    builds is rectangular, one row of cells per date and one cell per market
    in each row, with dates and markets in strictly ascending order.  On a
    view without nulls no row and no column of it is all gaps: every date
    has a price in some market and every market a price on some date. *)
Theorem pivot_is_rectangular {K : SortKernel} (view : DataFrame) :
  exists p,
    pivot (serie view) = Some p
    /\ List.length (values p) = List.length (index p)
    /\ Forall (fun row => List.length row = List.length (columns p)) (values p)
    /\ StronglySorted Z.lt (index p)
    /\ StronglySorted (fun a b => String.ltb a b = true) (columns p)
    /\ (no_nulls view ->
        (forall d, In d (index p) ->
                   exists m q, In m (columns p) /\ loc p d m = Some (Finite q))
        /\ (forall m, In m (columns p) ->
                      exists d q, In d (index p) /\ loc p d m = Some (Finite q))).
Proof.
  unfold serie.
  destruct (pivot_groupby (df_producto_sorted view)) as [p [Hp [Hi [Hc Hloc]]]].
  exists p. split; [exact Hp|].
  destruct (pivot_shape _ _ Hp) as (H1 & H2 & H3 & H4).
  split; [exact H1|]. split; [exact H2|]. split; [exact H3|]. split; [exact H4|].
  intros Hnn.
  assert (Hnn' : no_nulls (df_producto_sorted view)).
  { eapply no_nulls_perm; [apply Permutation_sym, df_producto_sorted_perm|exact Hnn]. }
  assert (Hcell : forall r d,
             In r (df_producto_sorted view) -> fecha r = Some d ->
             In d (index p) /\ In (mercado r) (columns p)
             /\ exists q, loc p d (mercado r) = Some (Finite q)).
  { intros r d Hr Hd.
    assert (Hdi : In d (index p)).
    { rewrite Hi, sorted_In, (unique_In Z.eqb Z.eqb_eq), group_keys_fst_In.
      now exists r. }
    assert (Hmi : In (mercado r) (columns p)).
    { rewrite Hc, sorted_In, (unique_In String.eqb String.eqb_eq),
        group_keys_snd_In.
      exists r. repeat split; [exact Hr|congruence]. }
    split; [exact Hdi|]. split; [exact Hmi|].
    rewrite (Hloc _ _ Hdi Hmi).
    assert (Hg : in_group (d, mercado r) r = true) by now apply in_group_iff.
    rewrite lookup_cell_present by (exists r; now split).
    rewrite mean_arithmetic.
    - eexists. reflexivity.
    - intros Habs.
      assert (Hin : In r (filter (in_group (d, mercado r)) (df_producto_sorted view)))
        by (apply filter_In; now split).
      rewrite Habs in Hin. contradiction.
    - now apply no_nulls_filter. }
  split.
  - intros d Hd.
    rewrite Hi, sorted_In, (unique_In Z.eqb Z.eqb_eq), group_keys_fst_In in Hd.
    destruct Hd as [r [Hr E]].
    destruct (Hcell r d Hr E) as (_ & Hm & q & Hq).
    now exists (mercado r), q.
  - intros m Hm.
    rewrite Hc, sorted_In, (unique_In String.eqb String.eqb_eq),
      group_keys_snd_In in Hm.
    destruct Hm as [r [Hr [Hd E]]].
    destruct (fecha r) as [d|] eqn:Ed; [|contradiction].
    destruct (Hcell r d Hr Ed) as (Hdi & _ & q & Hq).
    exists d, q. split; [exact Hdi|]. now rewrite <- E.
Qed.

Lemma pair_leb_total : leb_total pair_leb.
Proof.
  intros [d m] [d' m']. unfold pair_leb. simpl.
  destruct (Z.lt_trichotomy d d') as [H|[H|H]].
  - left. apply Z.ltb_lt in H. now rewrite H.
  - subst d'. rewrite Z.eqb_refl, Z.ltb_irrefl. simpl.
    apply string_leb_total.
  - right. apply Z.ltb_lt in H. now rewrite H.
Qed.

Lemma pair_leb_iff (a b : Z * string) :
  pair_leb a b = true
  <-> (fst a < fst b)%Z \/ (fst a = fst b /\ String.leb (snd a) (snd b) = true).
Proof.
  unfold pair_leb.
  rewrite orb_true_iff, andb_true_iff, Z.ltb_lt, Z.eqb_eq. tauto.
Qed.

Lemma pair_leb_trans : leb_trans pair_leb.
Proof.
  intros a b c. rewrite !pair_leb_iff.
  intros [H1|[H1 L1]] [H2|[H2 L2]].
  - left. lia.
  - left. lia.
  - left. lia.
  - right. split; [lia|]. eapply string_leb_trans; eassumption.
Qed.

Lemma fecha_mercado_leb_total : leb_total fecha_mercado_leb.
Proof. intros r s. apply pair_leb_total. Qed.

Lemma fecha_mercado_leb_trans : leb_trans fecha_mercado_leb.
Proof. intros r s t. apply pair_leb_trans. Qed.

Lemma sorted_by_fecha_mercado (l : DataFrame) :
  no_nulls l ->
  StronglySorted (fun r s => fecha_mercado_leb r s = true) l ->
  StronglySorted
    (fun r s =>
       exists d d',
         fecha r = Some d /\ fecha s = Some d'
         /\ ((d < d')%Z \/ (d = d' /\ String.leb (mercado r) (mercado s) = true)))
    l.
Proof.
  intros Hnn Hs. unfold no_nulls in Hnn. rewrite Forall_forall in Hnn.
  induction Hs as [|r t Hs IH Hr]; constructor.
  - apply IH. intros x Hx. apply Hnn. now right.
  - rewrite Forall_forall in *. intros s Hs'.
    specialize (Hr s Hs'). unfold fecha_mercado_leb in Hr.
    apply pair_leb_iff in Hr. simpl in Hr. unfold fecha_key in Hr.
    destruct (Hnn r (or_introl eq_refl)) as [Hdr _].
    destruct (Hnn s (or_intror Hs')) as [Hds _].
    destruct (fecha r) as [d|]; [|contradiction].
    destruct (fecha s) as [d'|]; [|contradiction].
    exists d, d'. auto.
Qed.

(** X17: the table under the charts shows the rows of the view, each as many
    times as the view has it; on a view without nulls they come by ascending
    date and, within a date, by ascending market name. *)
Theorem tabla_filtrada_spec {K : SortKernel} (view : DataFrame) :
  Permutation (tabla_filtrada view) view
  /\ (no_nulls view ->
      StronglySorted
        (fun r s =>
           exists d d',
             fecha r = Some d /\ fecha s = Some d'
             /\ ((d < d')%Z
                 \/ (d = d' /\ String.leb (mercado r) (mercado s) = true)))
        (tabla_filtrada view)).
Proof.
  assert (Hperm : Permutation (tabla_filtrada view) view).
  { unfold tabla_filtrada.
    eapply perm_trans; [|apply df_producto_sorted_perm].
    eapply perm_trans;
      [|apply (filter_partition_perm (fun r => notna_fecha (fecha r)))].
    apply Permutation_app; apply sort_by_perm. }
  split; [exact Hperm|].
  intros Hnn.
  assert (Hnn' : no_nulls (tabla_filtrada view)).
  { eapply no_nulls_perm; [apply Permutation_sym, Hperm|exact Hnn]. }
  assert (Hdated : forall r, In r (df_producto_sorted view) ->
                             notna_fecha (fecha r) = true).
  { intros r Hr. rewrite df_producto_sorted_In in Hr.
    unfold no_nulls in Hnn. rewrite Forall_forall in Hnn.
    destruct (Hnn r Hr) as [Hd _]. destruct (fecha r); [reflexivity|contradiction]. }
  assert (Hs : StronglySorted (fun r s => fecha_mercado_leb r s = true)
                 (tabla_filtrada view)).
  { unfold tabla_filtrada.
    rewrite (filter_none (fun r => notna_fecha (fecha r)) _ Hdated).
    assert (Hnil : sort_by (fun r s : Row => String.leb (mercado r) (mercado s)) []
                   = []).
    { apply Permutation_nil, Permutation_sym, sort_by_perm. }
    rewrite Hnil, app_nil_r.
    apply sort_by_sorted;
      [exact fecha_mercado_leb_total|exact fecha_mercado_leb_trans]. }
  now apply sorted_by_fecha_mercado.
Qed.

Lemma tabla_filtrada_rice :
  no_nulls rice_view
  /\ map (fun r => (fecha r, mercado r))
       (tabla_filtrada (K := insertion_kernel) rice_view)
     = [ (Some 19358%Z, "A"); (Some 19358%Z, "B"); (Some 19389%Z, "A") ]
  /\ Permutation (tabla_filtrada (K := insertion_kernel) rice_view) rice_view.
Proof.
  destruct rice_view_no_nulls as [_ Hnn].
  split; [exact Hnn|]. split; [reflexivity|].
  exact (proj1 (tabla_filtrada_spec (K := insertion_kernel) rice_view)).
Defined.

(** X18: every row of every view cut from a loaded file meets the selection
    and the invariants of the loader: a date inside the slider, the selected
    product, a price that is a number, and group, product and market texts
    without surrounding whitespace or lowercase letters. *)
Theorem loaded_view_invariants (parse_float : string -> option Q)
  (rows : list RawRow) (sel : Selection) :
  Forall
    (fun r =>
       (exists d, fecha r = Some d /\ (start_date sel <= d <= end_date sel)%Z)
       /\ producto_sel sel = Some (producto r)
       /\ (exists q, precio_promedio_por_kilogramo r = Finite q)
       /\ trimmed_upper (grupo r)
       /\ trimmed_upper (producto r)
       /\ trimmed_upper (mercado r))
    (df_producto (normalize_frame parse_float rows) sel).
Proof.
  apply Forall_forall. intros r Hr.
  rewrite df_producto_selected, filter_In, selected_iff in Hr.
  destruct Hr as (Hin & Hd & Hp & _).
  split; [exact Hd|]. split; [exact Hp|].
  pose proof (normalize_frame_notna parse_float rows) as Hnn.
  rewrite Forall_forall in Hnn. destruct (Hnn r Hin) as [_ Hprice].
  split.
  { destruct (precio_promedio_por_kilogramo r) as [q|]; [now exists q|contradiction]. }
  rewrite normalize_frame_eq in Hin. apply in_map_iff in Hin.
  destruct Hin as [raw [<- _]]. simpl.
  repeat split; apply normalize_text_trimmed_upper.
Qed.
